(** * reporter.py: the request/response protocol engine of itc-reporter

    A shallow embedding of [reporter.py] (credential resolution, request
    construction, transport, command dispatch, response processing) and the
    properties of its specification, settled against the code.

    The program imports [urllib.request] and calls [input], so it is a
    Python 3 program: [str] values are sequences of Unicode code points,
    [bytes] values are sequences of bytes, the two are distinct types and
    mixing them in [+] raises [TypeError]. What the standard library does
    ([json.dumps], [urllib.parse.urlencode], the UTF-8 codec, [str.replace])
    is modelled where the program's result depends on it; [zlib.decompress]
    and the remote server are parameters. *)

From Stdlib Require Import ZArith NArith List Lia.
From Stdlib.Strings Require Import String Ascii Byte.
From Stdlib Require Import DecimalString.
From stdpp Require Import base option list gmap.

Local Open Scope N_scope.

(** ** Strings and bytes *)

Abbreviation str := (list N) (only parsing).
Abbreviation bytes := (list byte) (only parsing).

(** A [str] literal, from its ASCII spelling. *)
Definition lit (s : string) : str := map N_of_ascii (list_ascii_of_string s).
Arguments lit : simpl never.

(** A [bytes] literal [b"..."]. *)
Definition blit (s : string) : bytes := list_byte_of_string s.

Definition byte_of (n : N) : byte := byte_of_ascii (ascii_of_N n).

Definition str_eqb (a b : str) : bool := bool_decide (a = b).

(** Truthiness of a [str]: the empty string is false. *)
Definition nonempty {A} (s : list A) : bool :=
  match s with [] => false | _ :: _ => true end.

(** Truthiness of a value that may be [None]. *)
Definition truthy {A} (v : option (list A)) : bool :=
  match v with Some s => nonempty s | None => false end.

(** [str(n)] for an [int]. *)
Definition str_of_int (z : Z) : str := lit (NilZero.string_of_int (Z.to_int z)).

(** [str(v)] for an [int] or [None]. *)
Definition str_of_optint (v : option Z) : str :=
  match v with Some z => str_of_int z | None => lit "None" end.

(** [s[:-3]]: all but the last three characters (empty when there are at
    most three). *)
Definition slice_to_minus3 (s : str) : str := take (length s - 3)%nat s.

Fixpoint is_prefix (p s : str) : bool :=
  match p, s with
  | [], _ => true
  | a :: p', b :: s' => (a =? b) && is_prefix p' s'
  | _ :: _, [] => false
  end.

(** [s.replace(old, new)] for a non-empty [old]: the occurrences of [old] are
    replaced from left to right, without overlap. [skip] counts the characters
    of a matched occurrence still to be passed over. *)
Fixpoint replace_from (old new : str) (skip : nat) (s : str) : str :=
  match s with
  | [] => []
  | c :: s' =>
      match skip with
      | S k => replace_from old new k s'
      | O => if is_prefix old s
             then new ++ replace_from old new (length old - 1)%nat s'
             else c :: replace_from old new O s'
      end
  end.

Definition replace (old new s : str) : str := replace_from old new O s.

(** ** UTF-8 *)

Definition is_cont (b : N) : bool := (0x80 <=? b) && (b <=? 0xBF).

Definition second_of3 (b0 b1 : N) : bool :=
  if b0 =? 0xE0 then (0xA0 <=? b1) && (b1 <=? 0xBF)
  else if b0 =? 0xED then (0x80 <=? b1) && (b1 <=? 0x9F)
  else is_cont b1.

Definition second_of4 (b0 b1 : N) : bool :=
  if b0 =? 0xF0 then (0x90 <=? b1) && (b1 <=? 0xBF)
  else if b0 =? 0xF4 then (0x80 <=? b1) && (b1 <=? 0x8F)
  else is_cont b1.

Definition low6 (b : N) : N := N.land b 0x3F.

(** [b.decode('utf-8')], strict: [None] stands for [UnicodeDecodeError]
    (overlong forms, surrogates, stray or missing continuation bytes and lead
    bytes above 0xF4 are rejected). *)
Fixpoint decode_utf8 (bs : bytes) : option str :=
  match bs with
  | [] => Some []
  | c0 :: r0 =>
    let b0 := Byte.to_N c0 in
    if b0 <? 0x80 then cons b0 <$> decode_utf8 r0
    else
    match r0 with
    | [] => None
    | c1 :: r1 =>
      let b1 := Byte.to_N c1 in
      if (0xC2 <=? b0) && (b0 <=? 0xDF) then
        if is_cont b1
        then cons (N.lor (N.shiftl (N.land b0 0x1F) 6) (low6 b1)) <$> decode_utf8 r1
        else None
      else
      match r1 with
      | [] => None
      | c2 :: r2 =>
        let b2 := Byte.to_N c2 in
        if (0xE0 <=? b0) && (b0 <=? 0xEF) then
          if second_of3 b0 b1 && is_cont b2
          then cons (N.lor (N.shiftl (N.land b0 0x0F) 12)
                      (N.lor (N.shiftl (low6 b1) 6) (low6 b2))) <$> decode_utf8 r2
          else None
        else
        match r2 with
        | [] => None
        | c3 :: r3 =>
          let b3 := Byte.to_N c3 in
          if (0xF0 <=? b0) && (b0 <=? 0xF4) && second_of4 b0 b1
             && is_cont b2 && is_cont b3
          then cons (N.lor (N.shiftl (N.land b0 0x07) 18)
                      (N.lor (N.shiftl (low6 b1) 12)
                        (N.lor (N.shiftl (low6 b2) 6) (low6 b3)))) <$> decode_utf8 r3
          else None
        end
      end
    end
  end.

(** The UTF-8 bytes of one code point; [None] for a surrogate or a value that
    is no code point ([UnicodeEncodeError]). *)
Definition encode_cp (c : N) : option (list N) :=
  if c <? 0x80 then Some [c]
  else if c <? 0x800 then
    Some [N.lor 0xC0 (N.shiftr c 6); N.lor 0x80 (low6 c)]
  else if c <? 0x10000 then
    if (0xD800 <=? c) && (c <=? 0xDFFF) then None
    else Some [N.lor 0xE0 (N.shiftr c 12); N.lor 0x80 (low6 (N.shiftr c 6));
               N.lor 0x80 (low6 c)]
  else if c <? 0x110000 then
    Some [N.lor 0xF0 (N.shiftr c 18); N.lor 0x80 (low6 (N.shiftr c 12));
          N.lor 0x80 (low6 (N.shiftr c 6)); N.lor 0x80 (low6 c)]
  else None.

Fixpoint encode_utf8_N (s : str) : option (list N) :=
  match s with
  | [] => Some []
  | c :: s' =>
      match encode_cp c, encode_utf8_N s' with
      | Some bs, Some r => Some (bs ++ r)
      | _, _ => None
      end
  end.

(** [s.encode('utf-8')]. *)
Definition encode_utf8 (s : str) : option bytes := map byte_of <$> encode_utf8_N s.

(** ** The serialisers of the standard library *)

(** One hexadecimal digit, as [format] prints it with [x] or [X]. *)
Definition hex_digit (upper : bool) (d : N) : N :=
  if d <? 10 then 48 + d else (if upper then 55 else 87) + d.

(** ['{0:04x}'.format(n)] for [n < 0x10000]. *)
Definition hex4 (n : N) : str :=
  [hex_digit false (N.land (N.shiftr n 12) 15); hex_digit false (N.land (N.shiftr n 8) 15);
   hex_digit false (N.land (N.shiftr n 4) 15); hex_digit false (N.land n 15)].

(** ['%{:02X}'.format(b)] for a byte [b]. *)
Definition percent_hex (b : N) : str :=
  [37; hex_digit true (N.land (N.shiftr b 4) 15); hex_digit true (N.land b 15)].

(** [json.dumps] of one character inside a string, with [ensure_ascii]: the
    printable ASCII characters but the backslash and the double quote stand
    for themselves, the others are escaped. *)
Definition json_escape_char (c : N) : str :=
  if c =? 92 then [92; 92]
  else if c =? 34 then [92; 34]
  else if (32 <=? c) && (c <=? 126) then [c]
  else if c =? 8 then [92; 98]
  else if c =? 12 then [92; 102]
  else if c =? 10 then [92; 110]
  else if c =? 13 then [92; 114]
  else if c =? 9 then [92; 116]
  else if c <? 0x10000 then [92; 117] ++ hex4 c
  else
    let n := c - 0x10000 in
    [92; 117] ++ hex4 (N.lor 0xD800 (N.land (N.shiftr n 10) 0x3FF))
    ++ [92; 117] ++ hex4 (N.lor 0xDC00 (N.land n 0x3FF)).

Definition json_string (s : str) : str := [34] ++ flat_map json_escape_char s ++ [34].

(** The values the request object holds: strings, and [None] for a user id
    that was not given. *)
Inductive json : Type :=
  | JNull
  | JString (s : str).

Definition json_value (v : json) : str :=
  match v with JNull => lit "null" | JString s => json_string s end.

(** A Python [dict] with [str] keys, in insertion order. *)
Abbreviation pydict := (list (str * json)) (only parsing).

(** [d.update(k=v)]: an existing key keeps its place and takes the new value,
    a new key goes last. *)
Fixpoint dict_update (k : str) (v : json) (d : pydict) : pydict :=
  match d with
  | [] => [(k, v)]
  | (k', v') :: d' => if str_eqb k' k then (k, v) :: d' else (k', v') :: dict_update k v d'
  end.

(** [d.get(k)]. *)
Fixpoint dict_get (k : str) (d : pydict) : option json :=
  match d with
  | [] => None
  | (k', v) :: d' => if str_eqb k' k then Some v else dict_get k d'
  end.

(** [k in d]. *)
Definition dict_has (k : str) (d : pydict) : bool :=
  match dict_get k d with Some _ => true | None => false end.

(** [', '.join(items)]. *)
Fixpoint join (sep : str) (items : list str) : str :=
  match items with
  | [] => []
  | [x] => x
  | x :: rest => x ++ sep ++ join sep rest
  end.

(** [json.dumps(d)] with the default separators. *)
Definition json_dumps (d : pydict) : str :=
  lit "{" ++ join (lit ", ") (map (fun kv => json_string kv.1 ++ lit ": " ++ json_value kv.2) d)
  ++ lit "}".

(** The bytes [urllib.parse.quote] never escapes: letters, digits and [_.-~]. *)
Definition always_safe (b : N) : bool :=
  ((65 <=? b) && (b <=? 90)) || ((97 <=? b) && (b <=? 122)) || ((48 <=? b) && (b <=? 57))
  || (b =? 95) || (b =? 46) || (b =? 45) || (b =? 126).

Definition quote_byte (safe : list N) (b : N) : str :=
  if always_safe b || bool_decide (b ∈ safe) then [b] else percent_hex b.

(** [urllib.parse.quote(s, safe)]: the UTF-8 bytes of [s], escaped. *)
Definition quote (safe : list N) (s : str) : option str :=
  flat_map (quote_byte safe) <$> encode_utf8_N s.

(** [urllib.parse.quote_plus(s)]: a space becomes a plus sign. *)
Definition quote_plus (s : str) : option str :=
  if bool_decide (32 ∈ s)
  then map (fun c => if c =? 32 then 43 else c) <$> quote [32] s
  else quote [] s.

(** [urllib.parse.urlencode(d)] for a [dict] of [str] values. *)
Fixpoint urlencode_items (d : list (str * str)) : option (list str) :=
  match d with
  | [] => Some []
  | (k, v) :: d' =>
      k' ← quote_plus k; v' ← quote_plus v; rest ← urlencode_items d';
      Some ((k' ++ lit "=" ++ v') :: rest)
  end.

Definition urlencode (d : list (str * str)) : option str :=
  join (lit "&") <$> urlencode_items d.

(** ** Exceptions, values and the outside world *)

(** The exceptions the program can end with. [UnicodeDecodeError] is a
    subclass of [ValueError] in Python; the others are not. *)
Inductive exn : Type :=
  | ValueError (msg : str)
  | UnicodeDecodeError
  | UnicodeEncodeError
  | TypeError (msg : str)
  | KeyError (key : str)
  | AttributeError (msg : str)
  | EOFError
  | URLError
  | OSError
  | ZlibError.

Inductive result (A : Type) : Type :=
  | Ok (a : A)
  | Raise (e : exn).
Arguments Ok {A} a.
Arguments Raise {A} e.

(** The values the optional [url_params] argument may hold. *)
Inductive value : Type :=
  | VNone
  | VStr (s : str)
  | VBytes (b : bytes).

Definition value_truthy (v : value) : bool :=
  match v with VNone => false | VStr s => nonempty s | VBytes b => nonempty b end.

(** [a += v] where [a] is a [bytes] object: only [bytes] can be appended. *)
Definition bytes_iadd (a : bytes) (v : value) : result bytes :=
  match v with
  | VBytes b => Ok (a ++ b)
  | VStr _ => Raise (TypeError (lit "can't concat str to bytes"))
  | VNone => Raise (TypeError (lit "can't concat NoneType to bytes"))
  end.

(** The header object [response.info()] returns, as far as the program looks
    at it: [get_content_type()], [get(name)] ([None] when the field is
    missing) and the attribute [dict], a mapping from field names to values.
    [dict = None] stands for a header object without that attribute
    ([http.client.HTTPMessage] has none): reading it raises
    [AttributeError]. *)
Module HTTPMessage.
Record t : Type := Build {
  get_content_type : str;
  get : str -> option str;
  dict : option (gmap (list N) (list N)) }.
End HTTPMessage.

(** What [urllib.request.urlopen] does with a request: a response, an
    [HTTPError] carrying the status code and the body, or a failure of the
    connection. *)
Inductive outcome : Type :=
  | Response (content : bytes) (header : HTTPMessage.t)
  | HTTPError (code : Z) (body : bytes)
  | ConnectionFailure.

(** What the program does to the outside world, in order. *)
Inductive event : Type :=
  | EvGetenv (name : str)
  | EvInput (prompt : str)
  | EvUrlopen (url : str) (data : bytes) (headers : list (str * str))
  | EvOpen (filename : str)
  | EvWrite (filename : str) (content : bytes)
  | EvPrint (text : str).

(** The outside world: the environment variables, the lines typed at the
    prompts, the outcomes of the HTTP requests to come, the file names that
    can be opened for writing, and the events so far. *)
Record World : Type := mkWorld {
  environ : gmap (list N) (list N);
  stdin : list str;
  network : list outcome;
  writable : str -> bool;
  trace : list event }.

(** Computations: the world is threaded through, an exception ends them. *)
Definition M (A : Type) : Type := World -> result A * World.

#[global] Instance M_ret : MRet M := fun A a w => (Ok a, w).
#[global] Instance M_bind : MBind M := fun A B f m w =>
  match m w with
  | (Ok a, w') => f a w'
  | (Raise e, w') => (Raise e, w')
  end.

Definition raise {A} (e : exn) : M A := fun w => (Raise e, w).

Definition lift {A} (r : result A) : M A := fun w => (r, w).

(** The world after one more event. *)
Definition log (ev : event) (w : World) : World :=
  mkWorld (environ w) (stdin w) (network w) (writable w) (trace w ++ [ev]).

Definition emit (ev : event) : M unit := fun w => (Ok tt, log ev w).

(** [os.getenv(name, default)]. *)
Definition getenv (name fallback : str) : M str := fun w =>
  (Ok (default fallback (environ w !! name)), log (EvGetenv name) w).

(** [input(prompt)]: the next line typed, [EOFError] when there is none. *)
Definition input (prompt : str) : M str := fun w =>
  match stdin w with
  | [] => (Raise EOFError, log (EvInput prompt) w)
  | line :: rest =>
      (Ok line, log (EvInput prompt) (mkWorld (environ w) rest (network w) (writable w) (trace w)))
  end.

(** [urllib.request.urlopen(request)] for a POST request: the request goes
    out and the next outcome comes back. *)
Definition urlopen (url : str) (data : bytes) (headers : list (str * str)) : M outcome :=
  fun w =>
  match network w with
  | [] => (Raise URLError, log (EvUrlopen url data headers) w)
  | o :: rest =>
      (Ok o, log (EvUrlopen url data headers)
               (mkWorld (environ w) (stdin w) rest (writable w) (trace w)))
  end.

(** [with open(filename, 'wb') as file: file.write(content)]. *)
Definition write_file (filename : str) (content : bytes) : M unit := fun w =>
  if writable w filename
  then (Ok tt, log (EvWrite filename content) (log (EvOpen filename) w))
  else (Raise OSError, log (EvOpen filename) w).

(** [print(text)]. *)
Definition print (text : str) : M unit := emit (EvPrint text).

(** [v if v else other]: [other] is evaluated only when [v] is false. *)
Definition if_truthy_else (v : option str) (other : M str) : M str :=
  match v with
  | Some s => if nonempty s then mret s else other
  | None => other
  end.

(** [v or other]. *)
Definition or_default (v : option str) (other : str) : str :=
  match v with
  | Some s => if nonempty s then s else other
  | None => other
  end.

(** ** The program *)

Definition VERSION : str := lit "2.2".
Definition ENDPOINT_SALES : str :=
  lit "https://reportingitc-reporter.apple.com/reportservice/sales/v1".
Definition ENDPOINT_FINANCE : str :=
  lit "https://reportingitc-reporter.apple.com/reportservice/finance/v1".

(** The parsed command line, [args]. [None] is an option that was not given. *)
Module Namespace.
Record t : Type := Build {
  userid : option str;
  access_token : option str;
  password : option str;
  account : option Z;
  mode : str;
  service : str;
  vendor : Z;
  datetype : str;
  date : str }.
End Namespace.

(** [(userid, access_token, password, account, mode)]. *)
Definition credentials : Type := option str * str * str * str * str.

Definition get_credentials (args : Namespace.t) : M credentials :=
  access_token ← if_truthy_else (Namespace.access_token args)
                   (getenv (lit "ITC_ACCESS_TOKEN") []);
  password ← (if negb (nonempty access_token)
              then if_truthy_else (Namespace.password args)
                     (input (lit "iTunes Connect password"))
              else mret []);
  mret (Namespace.userid args, access_token, password,
        str_of_optint (Namespace.account args), Namespace.mode args).

(** The [dict] [request] of [build_json_request_string], as [json.dumps]
    receives it. *)
Definition request_object (c : credentials) (query : str) : list (str * json) :=
  let '(userid, access_token, password, account, mode) := c in
  let request :=
    [(lit "userid", from_option JString JNull userid); (lit "version", JString VERSION);
     (lit "mode", JString mode); (lit "queryInput", JString query)] in
  let request :=
    if nonempty account then dict_update (lit "account") (JString account) request
    else request in
  let request :=
    if nonempty access_token then dict_update (lit "accesstoken") (JString access_token) request
    else request in
  let request :=
    if nonempty password then dict_update (lit "password") (JString password) request
    else request in
  request.

Definition build_json_request_string (c : credentials) (query : str) : result bytes :=
  match urlencode [(lit "jsonRequest", json_dumps (request_object c query))] with
  | Some encoded =>
      match encode_utf8 encoded with
      | Some data => Ok data
      | None => Raise UnicodeEncodeError
      end
  | None => Raise UnicodeEncodeError
  end.

Arguments build_json_request_string : simpl never.

Definition rejected_status (code : Z) : bool :=
  ((code =? 400) || (code =? 401) || (code =? 403) || (code =? 404))%Z.

(** The [try ... except urllib.error.HTTPError] of [post_request]: what the
    call returns or raises for an outcome of [urlopen]. *)
Definition handle_outcome (o : outcome) : result (bytes * HTTPMessage.t) :=
  match o with
  | Response content header => Ok (content, header)
  | HTTPError code body =>
      if rejected_status code then
        match decode_utf8 body with
        | Some message => Raise (ValueError message)
        | None => Raise UnicodeDecodeError
        end
      else
        Raise (ValueError (lit "HTTP Error " ++ str_of_int code
                           ++ lit ". Did you choose reasonable query arguments?"))
  | ConnectionFailure => Raise URLError
  end.

Definition post_request (endpoint : str) (c : credentials) (command : str)
    (url_params : value) : M (bytes * HTTPMessage.t) :=
  let command := lit "[p=Reporter.properties, " ++ command ++ lit "]" in
  request_data ← lift (build_json_request_string c command);
  request_data ← (if value_truthy url_params
                  then lift (bytes_iadd request_data url_params)
                  else mret request_data);
  r ← urlopen endpoint request_data [(lit "Accept", lit "*")];
  lift (handle_outcome r).

(** The sub-commands of the command line. *)
Inductive command : Type :=
  | getStatus | getAccounts | getVendors | getVendorsAndRegions
  | getSalesReport | generateToken | viewToken | deleteToken.

Section Commands.

(** [zlib.decompress(data, 15 + 32)]: the decompressed bytes of a gzip or zlib
    stream, [None] ([zlib.error]) for a stream that is corrupt. The program
    does not depend on how the library inflates. *)
Variable zlib_decompress : bytes -> option bytes.

Definition output_result (result : bytes * HTTPMessage.t) (unzip : bool) : M unit :=
  let '(content, header) := result in
  if str_eqb (HTTPMessage.get_content_type header) (lit "application/a-gzip") then
    let msg := HTTPMessage.get header (lit "downloadmsg") in
    let filename := or_default (HTTPMessage.get header (lit "filename")) (lit "report.txt.gz") in
    '(msg, filename, content) ←
      (if unzip then
         msg ← match msg with
               | Some m => mret (Some (replace (lit ".txt.gz") (lit ".txt") m))
               | None => raise (AttributeError
                                  (lit "'NoneType' object has no attribute 'replace'"))
               end;
         let filename := slice_to_minus3 filename in
         content ← match zlib_decompress content with
                   | Some data => mret data
                   | None => raise ZlibError
                   end;
         mret (msg, filename, content)
       else mret (msg, filename, content));
    write_file filename content;;
    print (from_option id (lit "None") msg)
  else
    match decode_utf8 content with
    | Some text => print text
    | None => raise UnicodeDecodeError
    end.

Definition itc_get_vendors (args : Namespace.t) : M unit :=
  let command := lit "Sales.getVendors" in
  c ← get_credentials args;
  r ← post_request ENDPOINT_SALES c command VNone;
  output_result r true.

Definition itc_get_status (args : Namespace.t) : M unit :=
  let command := Namespace.service args ++ lit ".getStatus" in
  let endpoint := if str_eqb (Namespace.service args) (lit "Sales")
                  then ENDPOINT_SALES else ENDPOINT_FINANCE in
  c ← get_credentials args;
  r ← post_request endpoint c command VNone;
  output_result r true.

Definition itc_get_accounts (args : Namespace.t) : M unit :=
  let command := Namespace.service args ++ lit ".getAccounts" in
  let endpoint := if str_eqb (Namespace.service args) (lit "Sales")
                  then ENDPOINT_SALES else ENDPOINT_FINANCE in
  c ← get_credentials args;
  r ← post_request endpoint c command VNone;
  output_result r true.

Definition itc_get_vendor_and_regions (args : Namespace.t) : M unit :=
  let command := lit "Finance.getVendorsAndRegions" in
  c ← get_credentials args;
  r ← post_request ENDPOINT_FINANCE c command VNone;
  output_result r true.

Definition itc_get_sales_report (args : Namespace.t) : M unit :=
  let command := lit "Sales.getReport, " ++ str_of_int (Namespace.vendor args)
                 ++ lit ",Sales,Summary," ++ Namespace.datetype args
                 ++ lit "," ++ Namespace.date args in
  c ← get_credentials args;
  r ← post_request ENDPOINT_SALES c command VNone;
  output_result r true.

Definition itc_view_token (args : Namespace.t) : M unit :=
  let command := lit "Sales.viewToken" in
  c ← get_credentials args;
  r ← post_request ENDPOINT_SALES c command VNone;
  output_result r true.

(** [header.dict['service_request_id']]. *)
Definition header_dict_item (header : HTTPMessage.t) (key : str) : M str :=
  match HTTPMessage.dict header with
  | None => raise (AttributeError (lit "'HTTPMessage' object has no attribute 'dict'"))
  | Some d =>
      match d !! key with
      | Some v => mret v
      | None => raise (KeyError key)
      end
  end.

Definition itc_generate_token (args : Namespace.t) : M unit :=
  let command := lit "Sales.generateToken" in
  c ← get_credentials args;
  '(_, header) ← post_request ENDPOINT_SALES c command VNone;
  service_request_id ← header_dict_item header (lit "service_request_id");
  c ← get_credentials args;
  result ← post_request ENDPOINT_SALES c command
             (VStr (lit "&isExistingToken=Y&requestId=" ++ service_request_id));
  output_result result true.

Definition itc_delete_token (args : Namespace.t) : M unit :=
  let command := lit "Sales.deleteToken" in
  c ← get_credentials args;
  r ← post_request ENDPOINT_SALES c command VNone;
  output_result r true.

(** The function each sub-command is bound to ([set_defaults(func=...)]),
    which the main program calls as [main_args.func(main_args)]. *)
Definition func (cmd : command) : Namespace.t -> M unit :=
  match cmd with
  | getStatus => itc_get_status
  | getAccounts => itc_get_accounts
  | getVendors => itc_get_vendors
  | getVendorsAndRegions => itc_get_vendor_and_regions
  | getSalesReport => itc_get_sales_report
  | generateToken => itc_generate_token
  | viewToken => itc_view_token
  | deleteToken => itc_delete_token
  end.

End Commands.

(** ** Validation and the main program *)

(** The name of a sub-command, as [args.command] holds it. *)
Definition command_name (cmd : command) : str :=
  match cmd with
  | getStatus => lit "getStatus"
  | getAccounts => lit "getAccounts"
  | getVendors => lit "getVendors"
  | getVendorsAndRegions => lit "getVendorsAndRegions"
  | getSalesReport => lit "getSalesReport"
  | generateToken => lit "generateToken"
  | viewToken => lit "viewToken"
  | deleteToken => lit "deleteToken"
  end.

(** [not args.account]: no account, or zero. *)
Definition no_account (args : Namespace.t) : bool :=
  match Namespace.account args with
  | None => true
  | Some z => (z =? 0)%Z
  end.

(** [args.command in ['getVendorsAndRegions', 'getVendors',
    'getFinancialReport']]; [args.command] is [None] when the command line
    names no sub-command. *)
Definition account_required (cmd : option command) : bool :=
  match cmd with
  | Some c =>
      bool_decide (command_name c ∈ [lit "getVendorsAndRegions"; lit "getVendors";
                                     lit "getFinancialReport"])
  | None => false
  end.

(** How a run of the program ends: [exit(code)], the usage error of
    [parser.error(message)] (the message goes to the standard error stream
    and the exit status is 2), or an exception no handler catches. *)
Inductive termination : Type :=
  | Exit (code : Z)
  | UsageError (message : str)
  | Uncaught (e : exn).

Section Main.

Variable zlib_decompress : bytes -> option bytes.

(** [datetime.datetime.strptime(date, format)]: [true] when the date parses,
    [false] when the call raises [ValueError]. *)
Variable strptime : str -> str -> bool.

(** [str(e)] for the [UnicodeError] of a failed decoding or encoding. *)
Variable codec_error_text : str.

(** [validate_arguments(args)] for the namespace of sub-command [cmd]. The
    attribute [datetype] exists for [getSalesReport] only; no sub-command
    defines [fiscalyear] or [fiscalperiod], so the two [hasattr] tests on
    them are false for every namespace [parse_arguments] builds. *)
Definition validate_arguments (cmd : option command) (args : Namespace.t) : result unit :=
  if no_account args && account_required cmd then
    Raise (ValueError (lit "Error: Argument -a/--account is needed for command '"
                       ++ from_option command_name (lit "None") cmd ++ lit "'"))
  else
  match cmd with
  | Some getSalesReport =>
      let date_format := lit "%Y%m%d" in
      let error := lit "Date must be specified as YYYYMMDD for daily reports" in
      let error :=
        if str_eqb (Namespace.datetype args) (lit "Weekly")
        then lit "Date must be specified as YYYYMMDD for weekly reports. The day used is the Sunday that week ends"
        else error in
      let '(error, date_format) :=
        if str_eqb (Namespace.datetype args) (lit "Monthly")
        then (lit "Date must be specified as YYYYMM for monthly reports", lit "%Y%m")
        else (error, date_format) in
      let '(error, date_format) :=
        if str_eqb (Namespace.datetype args) (lit "Yearly")
        then (lit "Date must be specified as YYYY for yearly reports", lit "%Y")
        else (error, date_format) in
      if strptime (Namespace.date args) date_format then Ok tt
      else Raise (ValueError (lit "Error: " ++ error))
  | _ => Ok tt
  end.

(** [isinstance(e, ValueError)]. *)
Definition is_ValueError (e : exn) : bool :=
  match e with
  | ValueError _ | UnicodeDecodeError | UnicodeEncodeError => true
  | _ => false
  end.

(** [str(e)] for an exception that is a [ValueError]. *)
Definition exn_text (e : exn) : str :=
  match e with
  | ValueError msg => msg
  | _ => codec_error_text
  end.

(** The program once [argparse] has parsed the command line into the
    sub-command [cmd] and the namespace [args]: the validation at the end of
    [parse_arguments], then the main block. *)
Definition main (cmd : option command) (args : Namespace.t) (w : World)
    : termination * World :=
  match validate_arguments cmd args with
  | Raise e => (UsageError (exn_text e), w)
  | Ok _ =>
      match cmd with
      | None =>
          (Uncaught (AttributeError (lit "'Namespace' object has no attribute 'func'")), w)
      | Some c =>
          match func zlib_decompress c args w with
          | (Ok _, w') => (Exit 0, w')
          | (Raise e, w') =>
              if is_ValueError e then (Exit (-1), log (EvPrint (exn_text e)) w')
              else (Uncaught e, w')
          end
      end
  end.

End Main.

(** The characters a form-encoded value is made of: the ones [quote] leaves
    alone, the percent sign of an escape and the plus sign of a space. *)
Definition form_safe (c : N) : bool := always_safe c || (c =? 37) || (c =? 43).

(** ** Observations on a trace *)

(** The HTTP requests issued, in order: the URL and the body. *)
Definition requests (t : list event) : list (str * bytes) :=
  omap (fun e => match e with EvUrlopen url data _ => Some (url, data) | _ => None end) t.

(** The environment variables read, in order. *)
Definition env_reads (t : list event) : list str :=
  omap (fun e => match e with EvGetenv name => Some name | _ => None end) t.

(** The prompts shown, in order. *)
Definition prompts (t : list event) : list str :=
  omap (fun e => match e with EvInput p => Some p | _ => None end) t.

(** The names of the files opened for writing, in order. *)
Definition opened (t : list event) : list str :=
  omap (fun e => match e with EvOpen f => Some f | _ => None end) t.

(** The files written, in order. *)
Definition written (t : list event) : list (str * bytes) :=
  omap (fun e => match e with EvWrite f c => Some (f, c) | _ => None end) t.

(** The texts printed, in order. *)
Definition printed (t : list event) : list str :=
  omap (fun e => match e with EvPrint s => Some s | _ => None end) t.

Definition is_ascii (s : str) : bool := forallb (fun c => c <? 128) s.

(** The event of a request as [post_request] sends it. *)
Definition request_sent (endpoint : str) (data : bytes) : event :=
  EvUrlopen endpoint data [(lit "Accept", lit "*")].

(** The [service_request_id] of the response metadata, when there is one. *)
Definition service_request_id (header : HTTPMessage.t) : option str :=
  d ← HTTPMessage.dict header; d !! lit "service_request_id".


(** The file name transformation in the words of the specification: a
    trailing [.gz] is stripped, a name that does not end in [.gz] is left as
    it is. *)
Definition strip_gz_suffix (s : str) : str :=
  if str_eqb (drop (length s - 3)%nat s) (lit ".gz") then take (length s - 3)%nat s else s.

(** ** Sample inputs *)

Module Sample.

(** An inflater for the samples, whose bodies are stored as they are. *)
Definition stored (data : bytes) : option bytes := Some data.

(** [header.get(name)] over a list of header fields. *)
Fixpoint field (fields : list (str * str)) (name : str) : option str :=
  match fields with
  | [] => None
  | (k, v) :: rest => if str_eqb k name then Some v else field rest name
  end.

Definition text_header : HTTPMessage.t :=
  HTTPMessage.Build (lit "text/plain") (field []) None.

Definition header_with_id : HTTPMessage.t :=
  HTTPMessage.Build (lit "text/plain") (field [])
    (Some {[ lit "service_request_id" := lit "abc123" ]}).

Definition header_without_id : HTTPMessage.t :=
  HTTPMessage.Build (lit "text/plain") (field []) (Some ∅).

Definition gzip_header (fields : list (str * str)) : HTTPMessage.t :=
  HTTPMessage.Build (lit "application/a-gzip") (field fields) None.

(** [-u me@example.com ... -P secret], no account. *)
Definition password_args : Namespace.t :=
  Namespace.Build (Some (lit "me@example.com")) None (Some (lit "secret")) None
    (lit "Normal") (lit "Sales") 0 [] [].

(** [-u me@example.com -a 0 getSalesReport -T tok 12345 Weekly 20230101]. *)
Definition report_args : Namespace.t :=
  Namespace.Build (Some (lit "me@example.com")) (Some (lit "tok")) None (Some 0%Z)
    (lit "Normal") (lit "Sales") 12345 (lit "Weekly") (lit "20230101").

(** A world with an empty environment, nothing typed, every file writable,
    and the given outcomes of the requests to come. *)
Definition world (outcomes : list outcome) : World :=
  mkWorld ∅ [] outcomes (fun _ => true) [].

Definition password_credentials : credentials :=
  (Some (lit "me@example.com"), [], lit "secret", lit "None", lit "Normal").

Definition report_credentials : credentials :=
  (Some (lit "me@example.com"), lit "tok", [], lit "0", lit "Normal").

End Sample.

(** ** More sample inputs *)

Module Demo.

(** A date check for the samples: as many digits as the format asks for. *)
Definition digits (date format : str) : bool :=
  forallb (fun c => (48 <=? c) && (c <=? 57)) date
  && bool_decide (length date
                  = if str_eqb format (lit "%Y") then 4%nat
                    else if str_eqb format (lit "%Y%m") then 6%nat else 8%nat).

(** An inflater that finds every body corrupt. *)
Definition broken (data : bytes) : option bytes := None.

Definition codec_text : str := lit "'utf-8' codec can't decode byte".

(** [-u me@example.com -a 42 getVendors -T tok]. *)
Definition vendor_args : Namespace.t :=
  Namespace.Build (Some (lit "me@example.com")) (Some (lit "tok")) None (Some 42%Z)
    (lit "Normal") [] 0 [] [].

Definition vendor_credentials : credentials :=
  (Some (lit "me@example.com"), lit "tok", [], lit "42", lit "Normal").

(** [-u me@example.com getStatus -T tok Finance]. *)
Definition status_args : Namespace.t :=
  Namespace.Build (Some (lit "me@example.com")) (Some (lit "tok")) None None
    (lit "Normal") (lit "Finance") 0 [] [].

Definition status_credentials : credentials :=
  (Some (lit "me@example.com"), lit "tok", [], lit "None", lit "Normal").

(** A command line with neither access token nor password. *)
Definition bare_args : Namespace.t :=
  Namespace.Build (Some (lit "me@example.com")) None None None
    (lit "Normal") (lit "Sales") 0 [] [].

(** A world whose environment holds an access token. *)
Definition token_world (token : str) (outcomes : list outcome) : World :=
  mkWorld {[ lit "ITC_ACCESS_TOKEN" := token ]} [] outcomes (fun _ => true) [].

(** A world in which the given lines are typed at the prompts. *)
Definition typing_world (lines : list str) (outcomes : list outcome) : World :=
  mkWorld ∅ lines outcomes (fun _ => true) [].

Definition report_header : HTTPMessage.t :=
  Sample.gzip_header
    [(lit "downloadmsg", lit "Successfully downloaded S_W_12345_20230101.txt.gz");
     (lit "filename", lit "S_W_12345_20230101.txt.gz")].

End Demo.

(** * Properties *)

(** ** The request builder never fails *)

Lemma is_ascii_app a b : is_ascii (a ++ b) = is_ascii a && is_ascii b.
Proof. apply forallb_app. Qed.

Lemma land15_lt x : N.land x 15 < 16.
Proof.
  change 15 with (N.ones 4). rewrite N.land_ones.
  apply N.mod_lt. discriminate.
Qed.

Lemma hex_digit_ascii upper d : d < 16 -> (hex_digit upper d <? 128) = true.
Proof.
  intros H. unfold hex_digit. apply N.ltb_lt.
  destruct (d <? 10), upper; lia.
Qed.

Lemma hex4_ascii n : is_ascii (hex4 n) = true.
Proof.
  unfold hex4, is_ascii; simpl.
  rewrite !hex_digit_ascii by apply land15_lt. reflexivity.
Qed.

Lemma percent_hex_ascii b : is_ascii (percent_hex b) = true.
Proof.
  unfold percent_hex, is_ascii; simpl.
  rewrite !hex_digit_ascii by apply land15_lt. reflexivity.
Qed.

Lemma json_escape_char_ascii c : is_ascii (json_escape_char c) = true.
Proof.
  unfold json_escape_char.
  destruct (c =? 92); [reflexivity|].
  destruct (c =? 34); [reflexivity|].
  destruct ((32 <=? c) && (c <=? 126)) eqn:E.
  - apply andb_true_iff in E as [_ E]. apply N.leb_le in E.
    unfold is_ascii; simpl. rewrite andb_true_r. apply N.ltb_lt. lia.
  - repeat match goal with
           | |- context [if ?b then _ else _] => destruct b
           end;
      rewrite ?is_ascii_app, ?hex4_ascii; reflexivity.
Qed.

Lemma flat_map_ascii (f : N -> str) s :
  (forall c, is_ascii (f c) = true) -> is_ascii (flat_map f s) = true.
Proof.
  intros Hf. induction s as [|c s IH]; simpl; [reflexivity|].
  rewrite is_ascii_app, Hf, IH. reflexivity.
Qed.

Lemma json_string_ascii s : is_ascii (json_string s) = true.
Proof.
  unfold json_string. rewrite !is_ascii_app, flat_map_ascii by apply json_escape_char_ascii.
  reflexivity.
Qed.

Lemma json_value_ascii v : is_ascii (json_value v) = true.
Proof. destruct v; [reflexivity | apply json_string_ascii]. Qed.

Lemma join_ascii sep items :
  is_ascii sep = true -> forallb is_ascii items = true -> is_ascii (join sep items) = true.
Proof.
  intros Hsep. induction items as [|x [|y rest] IH]; simpl; intros H.
  - reflexivity.
  - rewrite andb_true_r in H. exact H.
  - apply andb_true_iff in H as [Hx H].
    rewrite !is_ascii_app, Hx, Hsep. simpl. apply IH, H.
Qed.

Lemma json_dumps_ascii d : is_ascii (json_dumps d) = true.
Proof.
  unfold json_dumps. rewrite !is_ascii_app.
  rewrite join_ascii; [reflexivity | reflexivity |].
  induction d as [|[k v] d IH]; [reflexivity|].
  cbn [map forallb fst snd].
  rewrite !is_ascii_app, json_string_ascii, json_value_ascii, IH. reflexivity.
Qed.

Lemma encode_utf8_N_ascii s : is_ascii s = true -> encode_utf8_N s = Some s.
Proof.
  induction s as [|c s IH]; simpl; [reflexivity|].
  intros [Hc Hs]%andb_true_iff. rewrite (IH Hs).
  unfold encode_cp. apply N.ltb_lt in Hc.
  destruct (c <? 128) eqn:E; [reflexivity|]. apply N.ltb_ge in E. lia.
Qed.

Lemma quote_ascii safe s :
  is_ascii s = true ->
  exists q, quote safe s = Some q /\ is_ascii q = true.
Proof.
  intros Hs. unfold quote. rewrite (encode_utf8_N_ascii s Hs). simpl.
  eexists; split; [reflexivity|].
  induction s as [|c s IH]; simpl; [reflexivity|].
  apply andb_true_iff in Hs as [Hc Hs].
  rewrite is_ascii_app, (IH Hs), andb_true_r.
  unfold quote_byte. destruct (_ || _).
  - simpl. rewrite Hc. reflexivity.
  - apply percent_hex_ascii.
Qed.

Lemma quote_plus_ascii s :
  is_ascii s = true ->
  exists q, quote_plus s = Some q /\ is_ascii q = true.
Proof.
  intros Hs. unfold quote_plus. destruct (bool_decide _).
  - destruct (quote_ascii [32] s Hs) as (q & -> & Hq). simpl.
    eexists; split; [reflexivity|].
    clear Hs. induction q as [|c q IH]; simpl; [reflexivity|].
    simpl in Hq. apply andb_true_iff in Hq as [Hc Hq].
    rewrite (IH Hq), andb_true_r. destruct (c =? 32); [reflexivity | exact Hc].
  - apply quote_ascii, Hs.
Qed.

Lemma urlencode_ascii k v :
  is_ascii k = true -> is_ascii v = true ->
  exists q, urlencode [(k, v)] = Some q /\ is_ascii q = true.
Proof.
  intros Hk Hv. unfold urlencode, urlencode_items.
  destruct (quote_plus_ascii k Hk) as (k' & -> & Hk').
  destruct (quote_plus_ascii v Hv) as (v' & -> & Hv').
  exists (k' ++ lit "=" ++ v'); split; [reflexivity|].
  rewrite !is_ascii_app, Hk', Hv'. reflexivity.
Qed.

(** [build_json_request_string] returns for every credential tuple and every
    query: the JSON text is ASCII, so neither the URL quoting nor the final
    [encode] can raise. *)
Lemma build_json_request_string_total c query :
  exists data, build_json_request_string c query = Ok data.
Proof.
  unfold build_json_request_string.
  destruct (urlencode_ascii (lit "jsonRequest") (json_dumps (request_object c query)))
    as (q & -> & Hq); [reflexivity | apply json_dumps_ascii |].
  unfold encode_utf8. rewrite (encode_utf8_N_ascii q Hq). simpl. eauto.
Qed.

(** ** Credential resolution *)

Lemma bind_unfold {A B} (m : M A) (k : A -> M B) w :
  mbind k m w =
  match m w with
  | (Ok a, w') => k a w'
  | (Raise e, w') => (Raise e, w')
  end.
Proof. reflexivity. Qed.

Lemma str_of_int_nonempty z : nonempty (str_of_int z) = true.
Proof.
  unfold str_of_int. destruct (Z.to_int z) as [d|d].
  - destruct d; reflexivity.
  - reflexivity.
Qed.

(** [str(args.account)] is never the empty string: it is ["None"] when no
    account is given. *)
Lemma str_of_optint_nonempty v : nonempty (str_of_optint v) = true.
Proof. destruct v; [apply str_of_int_nonempty | reflexivity]. Qed.

(** The tuple [get_credentials] returns. *)
Lemma get_credentials_returns args w u tok pw acc mode w1 :
  get_credentials args w = (Ok (u, tok, pw, acc, mode), w1) ->
  u = Namespace.userid args /\ acc = str_of_optint (Namespace.account args)
  /\ mode = Namespace.mode args
  /\ tok = or_default (Namespace.access_token args)
             (default [] (environ w !! lit "ITC_ACCESS_TOKEN"))
  /\ (nonempty tok = true -> pw = []).
Proof.
  unfold get_credentials. rewrite bind_unfold.
  destruct (if_truthy_else (Namespace.access_token args) _ w) as [[t|e] w0] eqn:Et;
    [|discriminate].
  assert (t = or_default (Namespace.access_token args)
                (default [] (environ w !! lit "ITC_ACCESS_TOKEN"))) as Ht.
  { unfold if_truthy_else, or_default, getenv, mret, M_ret in *.
    destruct (Namespace.access_token args) as [s|]; [destruct (nonempty s)|];
      congruence. }
  rewrite bind_unfold.
  destruct (nonempty t) eqn:En; simpl.
  - unfold mret, M_ret. intros [= <- <- <- <- <-]. rewrite En. auto.
  - destruct (if_truthy_else (Namespace.password args) _ w0) as [[p|e] w2];
      [|discriminate].
    unfold mret, M_ret. intros [= <- <- <- <- <-]. rewrite En.
    repeat split; auto; discriminate.
Qed.

(** ** The fields of the request object *)

Lemma request_object_account u tok pw acc mode query :
  dict_get (lit "account") (request_object (u, tok, pw, acc, mode) query)
  = if nonempty acc then Some (JString acc) else None.
Proof.
  unfold request_object.
  destruct (nonempty acc), (nonempty tok), (nonempty pw); reflexivity.
Qed.

Lemma request_object_accesstoken u tok pw acc mode query :
  dict_get (lit "accesstoken") (request_object (u, tok, pw, acc, mode) query)
  = if nonempty tok then Some (JString tok) else None.
Proof.
  unfold request_object.
  destruct (nonempty acc), (nonempty tok), (nonempty pw); reflexivity.
Qed.

Lemma request_object_password u tok pw acc mode query :
  dict_get (lit "password") (request_object (u, tok, pw, acc, mode) query)
  = if nonempty pw then Some (JString pw) else None.
Proof.
  unfold request_object.
  destruct (nonempty acc), (nonempty tok), (nonempty pw); reflexivity.
Qed.


Lemma nonempty_true {A} (s : list A) : s <> [] -> nonempty s = true.
Proof. destruct s; [congruence | reflexivity]. Qed.

(** C1 (what the code does): whatever account the command line gives, absent
    and zero included, the request object built from the resolved credentials
    has an [account] field, and its value is [str(args.account)]: the text
    ["None"] for an absent account, ["0"] for zero. The guard
    [if account:] of [build_json_request_string] never omits the field,
    because [get_credentials] has turned the account into a string that is
    never empty. *)
Theorem account_field_always_present args w c w1 query :
  get_credentials args w = (Ok c, w1) ->
  dict_get (lit "account") (request_object c query)
  = Some (JString (str_of_optint (Namespace.account args))).
Proof.
  destruct c as [[[[u tok] pw] acc] mode]. intros H.
  apply get_credentials_returns in H as (_ & -> & _).
  rewrite request_object_account, str_of_optint_nonempty. reflexivity.
Qed.

(** C5: in the request object built from the resolved credentials, a
    non-empty access token (from the argument or the environment) comes with
    no [password] field, and a password without an access token comes with no
    [accesstoken] field; in both cases exactly one of the two fields is
    there. *)
Theorem token_and_password_exclusive args w u tok pw acc mode w1 query :
  get_credentials args w = (Ok (u, tok, pw, acc, mode), w1) ->
  let request := request_object (u, tok, pw, acc, mode) query in
  (tok <> [] ->
     dict_get (lit "accesstoken") request = Some (JString tok)
     /\ dict_has (lit "password") request = false)
  /\ (tok = [] -> pw <> [] ->
        dict_get (lit "password") request = Some (JString pw)
        /\ dict_has (lit "accesstoken") request = false).
Proof.
  intros H request. subst request. unfold dict_has.
  rewrite request_object_accesstoken, request_object_password.
  apply get_credentials_returns in H as (_ & _ & _ & _ & Hpw).
  split.
  - intros Ht%nonempty_true. rewrite Ht, (Hpw Ht). auto.
  - intros -> Hp%nonempty_true. rewrite Hp. auto.
Qed.

(** ** The effects of each step *)

Ltac unfold_M :=
  unfold mbind, M_bind, mret, M_ret, raise, lift, emit, print, getenv, input, urlopen,
    write_file, log in *.

Ltac extends_trace :=
  first [ exists []; split; [symmetry; apply app_nil_r|]
        | eexists; split; [reflexivity|]
        | eexists; split; [rewrite <- !app_assoc; reflexivity|] ].

(** Credential resolution sends nothing, writes nothing and prints nothing.
    It reads the environment once when the command line gives no access
    token and not at all when it gives one, and prompts at most once. *)
Lemma get_credentials_frame args w r w1 :
  get_credentials args w = (r, w1) ->
  environ w1 = environ w /\ network w1 = network w /\ writable w1 = writable w
  /\ exists evs, trace w1 = trace w ++ evs
       /\ requests evs = [] /\ opened evs = [] /\ written evs = [] /\ printed evs = []
       /\ env_reads evs = (if truthy (Namespace.access_token args) then []
                           else [lit "ITC_ACCESS_TOKEN"])
       /\ (length (prompts evs) <= 1)%nat.
Proof.
  unfold get_credentials, if_truthy_else, truthy. unfold_M.
  destruct w as [env sin net wr tr]; simpl.
  destruct (Namespace.access_token args) as [t|]; [destruct (nonempty t) eqn:Et|];
    simpl; rewrite ?Et; simpl;
    try (destruct (nonempty (default [] (env !! lit "ITC_ACCESS_TOKEN"))); simpl);
    try (destruct (Namespace.password args) as [p|]; [destruct (nonempty p)|]; simpl);
    try (destruct sin; simpl);
    intros [= <- <-]; simpl; (do 3 (split; [reflexivity|]));
    extends_trace; simpl; repeat split; lia.
Qed.

(** A call of [post_request] without extra parameters sends one request,
    whose body is the built request string, and returns or raises what the
    outcome of that request calls for. *)
Lemma post_request_no_params endpoint c command w :
  exists data,
    build_json_request_string c (lit "[p=Reporter.properties, " ++ command ++ lit "]")
    = Ok data
    /\ post_request endpoint c command VNone w
       = match network w with
         | [] => (Raise URLError, log (request_sent endpoint data) w)
         | o :: rest =>
             (handle_outcome o,
              log (request_sent endpoint data)
                (mkWorld (environ w) (stdin w) rest (writable w) (trace w)))
         end.
Proof.
  destruct (build_json_request_string_total c
              (lit "[p=Reporter.properties, " ++ command ++ lit "]")) as [data Hd].
  exists data. split; [exact Hd|].
  unfold post_request. unfold_M. rewrite Hd. simpl.
  destruct (network w) as [|o rest]; [reflexivity|].
  destruct (handle_outcome o); reflexivity.
Qed.

(** With a non-empty [str] as extra parameters, [post_request] raises
    [TypeError] at [request_data += url_params], where [request_data] is a
    [bytes] object, and sends nothing. *)
Lemma post_request_str_params endpoint c command s w :
  nonempty s = true ->
  post_request endpoint c command (VStr s) w
  = (Raise (TypeError (lit "can't concat str to bytes")), w).
Proof.
  intros Hs.
  destruct (build_json_request_string_total c
              (lit "[p=Reporter.properties, " ++ command ++ lit "]")) as [data Hd].
  unfold post_request. unfold_M. rewrite Hd. simpl. rewrite Hs. reflexivity.
Qed.

(** Response processing sends nothing, reads no environment variable and
    shows no prompt. *)
Lemma output_result_frame zlib r unzip w res w1 :
  output_result zlib r unzip w = (res, w1) ->
  environ w1 = environ w /\ stdin w1 = stdin w /\ network w1 = network w
  /\ exists evs, trace w1 = trace w ++ evs
       /\ requests evs = [] /\ env_reads evs = [] /\ prompts evs = [].
Proof.
  destruct r as [content header]. unfold output_result. unfold_M.
  destruct w as [env sin net wr tr]; simpl.
  destruct (str_eqb _ _).
  - destruct unzip; simpl.
    + destruct (HTTPMessage.get header (lit "downloadmsg")); simpl;
        [destruct (zlib content); simpl; [destruct (wr _); simpl|]|];
        intros [= <- <-]; simpl; (do 3 (split; [reflexivity|]));
        extends_trace; auto.
    + destruct (wr _); simpl;
        intros [= <- <-]; simpl; (do 3 (split; [reflexivity|]));
        extends_trace; auto.
  - destruct (decode_utf8 content); simpl;
      intros [= <- <-]; simpl; (do 3 (split; [reflexivity|]));
      extends_trace; auto.
Qed.

(** C10: a gzip response without a [downloadmsg] header makes
    [output_result] raise [AttributeError] at the rewrite of the message
    ([None] has no [replace]), with the world as it was: no file is opened or
    written and nothing is printed. The file name has a default, the message
    has none. *)
Theorem missing_downloadmsg_fails_before_write zlib content header w :
  HTTPMessage.get_content_type header = lit "application/a-gzip" ->
  HTTPMessage.get header (lit "downloadmsg") = None ->
  output_result zlib (content, header) true w
  = (Raise (AttributeError (lit "'NoneType' object has no attribute 'replace'")), w).
Proof.
  intros Hct Hmsg. unfold output_result. rewrite Hct, Hmsg. reflexivity.
Qed.

(** C7: a response whose content type is not [application/a-gzip] is decoded
    as UTF-8 and printed, and that is all that happens: no file is opened or
    written. A body that is not UTF-8 makes the decoding raise, again without
    any file. *)
Theorem text_response_is_printed zlib content header unzip w :
  HTTPMessage.get_content_type header <> lit "application/a-gzip" ->
  output_result zlib (content, header) unzip w
  = match decode_utf8 content with
    | Some text => (Ok tt, log (EvPrint text) w)
    | None => (Raise UnicodeDecodeError, w)
    end
  /\ opened (trace (output_result zlib (content, header) unzip w).2) = opened (trace w)
  /\ written (trace (output_result zlib (content, header) unzip w).2) = written (trace w).
Proof.
  intros Hct. unfold output_result, str_eqb. rewrite bool_decide_eq_false_2 by exact Hct.
  destruct (decode_utf8 content) as [text|]; unfold_M; simpl.
  - unfold opened, written. rewrite !omap_app. simpl. rewrite !app_nil_r. auto.
  - auto.
Qed.

Lemma slice_to_minus3_app base suffix :
  length suffix = 3%nat -> slice_to_minus3 (base ++ suffix) = base.
Proof.
  intros H. unfold slice_to_minus3. rewrite length_app, H, Nat.add_sub.
  rewrite take_app_le by lia. apply firstn_all.
Qed.

(** What [output_result] does with a gzip response when it is told to unzip,
    the message header is there and the body inflates. *)
Lemma output_result_gzip zlib content header w msg data :
  HTTPMessage.get_content_type header = lit "application/a-gzip" ->
  HTTPMessage.get header (lit "downloadmsg") = Some msg ->
  zlib content = Some data ->
  let name := slice_to_minus3
                (or_default (HTTPMessage.get header (lit "filename")) (lit "report.txt.gz")) in
  output_result zlib (content, header) true w
  = if writable w name
    then (Ok tt, log (EvPrint (replace (lit ".txt.gz") (lit ".txt") msg))
                   (log (EvWrite name data) (log (EvOpen name) w)))
    else (Raise OSError, log (EvOpen name) w).
Proof.
  intros Hct Hmsg Hz name. unfold output_result. rewrite Hct, Hmsg. unfold_M.
  simpl. rewrite Hz. simpl. fold name. destruct w as [env sin net wr tr]; simpl.
  destruct (wr name); reflexivity.
Qed.

(** C6 (as the code has it): for a gzip response processed with [unzip]
    (message header present, body inflating), the file opened is the metadata
    file name, or [report.txt.gz] when that header is absent or empty,
    without its last three characters. For a name that ends in [.gz] this
    strips exactly the trailing [.gz]. *)
Theorem gzip_target_filename zlib content header w msg data :
  HTTPMessage.get_content_type header = lit "application/a-gzip" ->
  HTTPMessage.get header (lit "downloadmsg") = Some msg ->
  zlib content = Some data ->
  let name := or_default (HTTPMessage.get header (lit "filename")) (lit "report.txt.gz") in
  opened (trace (output_result zlib (content, header) true w).2)
  = opened (trace w) ++ [slice_to_minus3 name]
  /\ (forall base, name = base ++ lit ".gz" ->
        slice_to_minus3 name = base /\ strip_gz_suffix name = base).
Proof.
  intros Hct Hmsg Hz name. split.
  - rewrite (output_result_gzip zlib content header w msg data Hct Hmsg Hz).
    fold name. destruct (writable w (slice_to_minus3 name)); simpl;
      unfold opened; rewrite !omap_app; simpl; rewrite ?app_nil_r; reflexivity.
  - intros base ->. split; [apply slice_to_minus3_app; reflexivity|].
    unfold strip_gz_suffix, str_eqb.
    rewrite length_app. change (length (lit ".gz")) with 3%nat. rewrite Nat.add_sub.
    rewrite drop_app_length, take_app_length.
    rewrite bool_decide_eq_true_2 by reflexivity. reflexivity.
Qed.

(** ** The transport *)

Lemma rejected_status_iff code :
  rejected_status code = true
  <-> (code = 400 \/ code = 401 \/ code = 403 \/ code = 404)%Z.
Proof.
  unfold rejected_status. rewrite !orb_true_iff, !Z.eqb_eq. tauto.
Qed.

(** C4: for an [HTTPError] with status 400, 401, 403 or 404, [post_request]
    raises [ValueError] with the body of the response, read as UTF-8 text, as
    its message; for an [HTTPError] with any other status it raises
    [ValueError] with the generic message that names the status. The two
    error kinds of the specification are both [ValueError] in the code, told
    apart by the message. *)
Theorem http_error_mapping endpoint c command w code body rest :
  network w = HTTPError code body :: rest ->
  ((code = 400 \/ code = 401 \/ code = 403 \/ code = 404)%Z ->
     forall message, decode_utf8 body = Some message ->
       (post_request endpoint c command VNone w).1 = Raise (ValueError message))
  /\ (~ (code = 400 \/ code = 401 \/ code = 403 \/ code = 404)%Z ->
        (post_request endpoint c command VNone w).1
        = Raise (ValueError (lit "HTTP Error " ++ str_of_int code
                             ++ lit ". Did you choose reasonable query arguments?"))).
Proof.
  intros Hnet.
  destruct (post_request_no_params endpoint c command w) as (data & _ & ->).
  rewrite Hnet. simpl. split.
  - intros Hcode%rejected_status_iff message Hm. rewrite Hcode, Hm. reflexivity.
  - intros Hcode. destruct (rejected_status code) eqn:E; [|reflexivity].
    apply rejected_status_iff in E. contradiction.
Qed.

(** ** The commands *)

Lemma requests_app t u : requests (t ++ u) = requests t ++ requests u.
Proof. apply omap_app. Qed.



(** Every sub-command but [generateToken] resolves the credentials, posts
    one command string to one endpoint and processes the result. *)
Lemma single_leg_shape zlib cmd :
  cmd <> generateToken ->
  exists endpoint command, forall args,
    func zlib cmd args
    = (c ← get_credentials args;
       r ← post_request (endpoint args) c (command args) VNone;
       output_result zlib r true).
Proof.
  intros H. destruct cmd; try congruence;
    match goal with
    | |- exists _ _, forall args, func _ _ args = mbind _ _ =>
        eexists (fun args => _), (fun args => _); intros args; reflexivity
    end.
Qed.

(** A single-leg run that resolves its credentials sends exactly one
    request: the command string, wrapped, in the request built from those
    credentials. *)
Lemma single_leg_requests zlib endpoint command args w c w1 :
  get_credentials args w = (Ok c, w1) ->
  exists data,
    build_json_request_string c (lit "[p=Reporter.properties, " ++ command ++ lit "]")
    = Ok data
    /\ requests (trace ((c ← get_credentials args;
                         r ← post_request endpoint c command VNone;
                         output_result zlib r true) w).2)
       = requests (trace w) ++ [(endpoint, data)].
Proof.
  intros Hc.
  destruct (get_credentials_frame _ _ _ _ Hc) as (_ & _ & _ & evs & Ht & Hr & _).
  destruct (post_request_no_params endpoint c command w1) as (data & Hd & Hp).
  exists data. split; [exact Hd|].
  rewrite bind_unfold, Hc, bind_unfold, Hp.
  assert (requests (trace w1 ++ [request_sent endpoint data])
          = requests (trace w) ++ [(endpoint, data)]) as Hone.
  { rewrite Ht, !requests_app, Hr, app_nil_r. reflexivity. }
  destruct (network w1) as [|o rest]; [exact Hone|].
  destruct (handle_outcome o) as [r|e]; [|exact Hone].
  destruct (output_result zlib r true _) as [res w3] eqn:Ho.
  apply output_result_frame in Ho as (_ & _ & _ & evs3 & Ht3 & Hr3 & _).
  simpl in *. rewrite Ht3, requests_app, Hr3, app_nil_r. exact Hone.
Qed.


(** Credential resolution can only fail at the prompt. *)
Lemma get_credentials_raises args w e w1 :
  get_credentials args w = (Raise e, w1) -> e = EOFError.
Proof.
  unfold get_credentials, if_truthy_else. unfold_M.
  destruct w as [env sin net wr tr]; simpl.
  destruct (Namespace.access_token args) as [t|]; [destruct (nonempty t) eqn:Et|];
    simpl; rewrite ?Et; simpl;
    try (destruct (nonempty (default [] (env !! lit "ITC_ACCESS_TOKEN"))); simpl);
    try (destruct (Namespace.password args) as [p|]; [destruct (nonempty p)|]; simpl);
    try (destruct sin; simpl);
    congruence.
Qed.

Lemma header_dict_item_service_request_id header w :
  header_dict_item header (lit "service_request_id") w
  = match service_request_id header with
    | Some id => (Ok id, w)
    | None =>
        (Raise (match HTTPMessage.dict header with
                | Some _ => KeyError (lit "service_request_id")
                | None => AttributeError (lit "'HTTPMessage' object has no attribute 'dict'")
                end), w)
    end.
Proof.
  unfold header_dict_item, service_request_id.
  destruct (HTTPMessage.dict header) as [d|]; simpl; [|reflexivity].
  destruct (d !! lit "service_request_id"); reflexivity.
Qed.

(** The first leg of [generateToken], when the credentials resolve and the
    server answers: one request to the sales endpoint, then the rest of the
    command runs on the metadata of the answer. *)
Lemma generate_token_first_leg zlib args w c w1 content header rest :
  get_credentials args w = (Ok c, w1) ->
  network w = Response content header :: rest ->
  exists data w2,
    build_json_request_string c (lit "[p=Reporter.properties, Sales.generateToken]") = Ok data
    /\ trace w2 = trace w1 ++ [request_sent ENDPOINT_SALES data]
    /\ itc_generate_token zlib args w
       = (service_request_id ← header_dict_item header (lit "service_request_id");
          c ← get_credentials args;
          result ← post_request ENDPOINT_SALES c (lit "Sales.generateToken")
                     (VStr (lit "&isExistingToken=Y&requestId=" ++ service_request_id));
          output_result zlib result true) w2.
Proof.
  intros Hc Hnet.
  destruct (get_credentials_frame _ _ _ _ Hc) as (_ & Hn & _).
  destruct (post_request_no_params ENDPOINT_SALES c (lit "Sales.generateToken") w1)
    as (data & Hd & Hp).
  rewrite Hn, Hnet in Hp. simpl in Hp.
  exists data. eexists. split; [exact Hd|]. split; [|].
  2: { unfold itc_generate_token. rewrite bind_unfold, Hc, bind_unfold, Hp. reflexivity. }
  reflexivity.
Qed.

(** C2 (what the code does): when the first response carries a
    [service_request_id], [generateToken] fails and has sent one request
    only. The confirming call stops at [request_data += url_params], which
    appends the [str] [&isExistingToken=Y&requestId=<id>] to a [bytes]
    object and raises [TypeError] before anything is sent (or, when the
    password has to be typed again and cannot be, at that prompt). *)
Theorem generate_token_never_confirms zlib args w c w1 content header rest id :
  get_credentials args w = (Ok c, w1) ->
  network w = Response content header :: rest ->
  service_request_id header = Some id ->
  exists e w' data,
    itc_generate_token zlib args w = (Raise e, w')
    /\ (e = TypeError (lit "can't concat str to bytes") \/ e = EOFError)
    /\ requests (trace w') = requests (trace w) ++ [(ENDPOINT_SALES, data)].
Proof.
  intros Hc Hnet Hid.
  destruct (generate_token_first_leg zlib args w c w1 content header rest Hc Hnet)
    as (data & w2 & _ & Ht2 & ->).
  destruct (get_credentials_frame _ _ _ _ Hc) as (_ & _ & _ & evs & Ht & Hr & _).
  rewrite bind_unfold, header_dict_item_service_request_id, Hid, bind_unfold.
  destruct (get_credentials args w2) as [[c2|e2] w3] eqn:Hc2;
    destruct (get_credentials_frame _ _ _ _ Hc2) as (_ & _ & _ & evs2 & Ht3 & Hr3 & _).
  - rewrite bind_unfold, post_request_str_params by reflexivity.
    eexists _, w3, data. split; [reflexivity|]. split; [auto|].
    rewrite Ht3, Ht2, Ht, !requests_app, Hr, Hr3, !app_nil_r. reflexivity.
  - apply get_credentials_raises in Hc2 as ->.
    eexists _, w3, data. split; [reflexivity|]. split; [auto|].
    rewrite Ht3, Ht2, Ht, !requests_app, Hr, Hr3, !app_nil_r. reflexivity.
Qed.

(** C3: when the first response carries no [service_request_id],
    [generateToken] fails at the lookup [header.dict['service_request_id']]
    ([KeyError], or [AttributeError] for a header object without [dict]) and
    has sent the first request only. *)
Theorem generate_token_without_request_id zlib args w c w1 content header rest :
  get_credentials args w = (Ok c, w1) ->
  network w = Response content header :: rest ->
  service_request_id header = None ->
  exists e w' data,
    itc_generate_token zlib args w = (Raise e, w')
    /\ (e = KeyError (lit "service_request_id")
        \/ e = AttributeError (lit "'HTTPMessage' object has no attribute 'dict'"))
    /\ requests (trace w') = requests (trace w) ++ [(ENDPOINT_SALES, data)].
Proof.
  intros Hc Hnet Hid.
  destruct (generate_token_first_leg zlib args w c w1 content header rest Hc Hnet)
    as (data & w2 & _ & Ht2 & ->).
  destruct (get_credentials_frame _ _ _ _ Hc) as (_ & _ & _ & evs & Ht & Hr & _).
  rewrite bind_unfold, header_dict_item_service_request_id, Hid.
  eexists _, w2, data. split; [reflexivity|]. split.
  - destruct (HTTPMessage.dict header); auto.
  - rewrite Ht2, Ht, !requests_app, Hr, !app_nil_r. reflexivity.
Qed.

(** ** How often the credentials are resolved *)






(** ** The model on concrete inputs *)

Example decode_ascii : decode_utf8 (blit "Unauthorized") = Some (lit "Unauthorized").
Proof. reflexivity. Qed.

Example decode_euro :
  decode_utf8 (map byte_of [0xE2; 0x82; 0xAC]) = Some [0x20AC].
Proof. reflexivity. Qed.

Example encode_euro : encode_utf8 [0x20AC] = Some (map byte_of [0xE2; 0x82; 0xAC]).
Proof. reflexivity. Qed.

Example decode_invalid :
  decode_utf8 (map byte_of [0xFF]) = None
  /\ decode_utf8 (map byte_of [0xC0; 0x80]) = None
  /\ decode_utf8 (map byte_of [0xED; 0xA0; 0x80]) = None
  /\ decode_utf8 (map byte_of [0xE2; 0x82]) = None.
Proof. repeat split; reflexivity. Qed.

Example str_of_int_examples :
  str_of_int 12345 = lit "12345" /\ str_of_int 0 = lit "0" /\ str_of_int (-7) = lit "-7".
Proof. repeat split; reflexivity. Qed.

Example str_of_account_examples :
  str_of_optint None = lit "None" /\ str_of_optint (Some 0%Z) = lit "0".
Proof. split; reflexivity. Qed.

Example slice_examples :
  slice_to_minus3 (lit "report.txt.gz") = lit "report.txt"
  /\ slice_to_minus3 (lit "report.txt") = lit "report."
  /\ slice_to_minus3 (lit "ab") = [].
Proof. repeat split; reflexivity. Qed.

Example replace_examples :
  replace (lit ".txt.gz") (lit ".txt") (lit "Saved a.txt.gz and b.txt.gz")
  = lit "Saved a.txt and b.txt"
  /\ replace (lit ".txt.gz") (lit ".txt") (lit "nothing here") = lit "nothing here".
Proof. repeat split; reflexivity. Qed.

(** The request string for a password login without account, byte for byte:
    the [account] field is there, with the value ["None"]. *)
Example request_string_without_account :
  build_json_request_string Sample.password_credentials
    (lit "[p=Reporter.properties, Sales.generateToken]")
  = Ok (blit "jsonRequest=%7B%22userid%22%3A+%22me%40example.com%22%2C+%22version%22%3A+%222.2%22%2C+%22mode%22%3A+%22Normal%22%2C+%22queryInput%22%3A+%22%5Bp%3DReporter.properties%2C+Sales.generateToken%5D%22%2C+%22account%22%3A+%22None%22%2C+%22password%22%3A+%22secret%22%7D").
Proof. vm_compute. reflexivity. Qed.

Example request_string_sales_report :
  build_json_request_string Sample.report_credentials
    (lit "[p=Reporter.properties, Sales.getReport, 12345,Sales,Summary,Weekly,20230101]")
  = Ok (blit "jsonRequest=%7B%22userid%22%3A+%22me%40example.com%22%2C+%22version%22%3A+%222.2%22%2C+%22mode%22%3A+%22Normal%22%2C+%22queryInput%22%3A+%22%5Bp%3DReporter.properties%2C+Sales.getReport%2C+12345%2CSales%2CSummary%2CWeekly%2C20230101%5D%22%2C+%22account%22%3A+%220%22%2C+%22accesstoken%22%3A+%22tok%22%7D").
Proof. vm_compute. reflexivity. Qed.

(** [json.dumps] of a string with a quote, a backslash, a line feed, a
    Latin-1 letter, DEL and a character beyond the basic plane. *)
Example json_escapes :
  json_string [97; 34; 92; 10; 233; 127; 128512]
  = [34; 97; 92; 34; 92; 92] ++ lit "\n\u00e9\u007f\ud83d\ude00" ++ [34].
Proof. reflexivity. Qed.

(** ** The theorems at concrete inputs *)

(** C1 with no account on the command line: the request object has the
    field [account] with the value ["None"]. *)
Lemma account_field_always_present_witness :
  get_credentials Sample.password_args (Sample.world [])
  = (Ok Sample.password_credentials,
     log (EvGetenv (lit "ITC_ACCESS_TOKEN")) (Sample.world []))
  /\ dict_get (lit "account")
       (request_object Sample.password_credentials (lit "[p=Reporter.properties, Sales.viewToken]"))
     = Some (JString (lit "None")).
Proof.
  split; [reflexivity|].
  apply (account_field_always_present Sample.password_args (Sample.world [])
           Sample.password_credentials
           (log (EvGetenv (lit "ITC_ACCESS_TOKEN")) (Sample.world []))).
  reflexivity.
Defined.

(** An account of zero is sent as ["0"]. *)
Example account_zero_is_sent :
  dict_get (lit "account")
    (request_object Sample.report_credentials (lit "[p=Reporter.properties, Sales.getVendors]"))
  = Some (JString (lit "0")).
Proof. reflexivity. Qed.

(** C5 at a command line with an access token. *)
Lemma token_and_password_exclusive_witness :
  get_credentials Sample.report_args (Sample.world [])
  = (Ok Sample.report_credentials, Sample.world [])
  /\ (let request := request_object Sample.report_credentials (lit "q") in
      (lit "tok" <> [] ->
         dict_get (lit "accesstoken") request = Some (JString (lit "tok"))
         /\ dict_has (lit "password") request = false)
      /\ ((lit "tok" : str) = [] -> ([] : str) <> [] ->
            dict_get (lit "password") request = Some (JString [])
            /\ dict_has (lit "accesstoken") request = false)).
Proof.
  split; [reflexivity|].
  apply (token_and_password_exclusive Sample.report_args (Sample.world [])
           (Some (lit "me@example.com")) (lit "tok") [] (lit "0") (lit "Normal")
           (Sample.world []) (lit "q")).
  reflexivity.
Defined.

(** The password case of the same theorem. *)
Example password_only_request :
  let request := request_object Sample.password_credentials (lit "q") in
  dict_get (lit "password") request = Some (JString (lit "secret"))
  /\ dict_has (lit "accesstoken") request = false.
Proof. split; reflexivity. Qed.

(** C2 at a server that answers the first request with a
    [service_request_id] and would answer a second one. *)
Lemma generate_token_never_confirms_witness :
  get_credentials Sample.password_args
    (Sample.world [Response [] Sample.header_with_id; Response (blit "token") Sample.text_header])
  = (Ok Sample.password_credentials,
     log (EvGetenv (lit "ITC_ACCESS_TOKEN"))
       (Sample.world [Response [] Sample.header_with_id;
                      Response (blit "token") Sample.text_header]))
  /\ service_request_id Sample.header_with_id = Some (lit "abc123")
  /\ exists e w' data,
       itc_generate_token Sample.stored Sample.password_args
         (Sample.world [Response [] Sample.header_with_id;
                        Response (blit "token") Sample.text_header])
       = (Raise e, w')
       /\ (e = TypeError (lit "can't concat str to bytes") \/ e = EOFError)
       /\ requests (trace w') = requests [] ++ [(ENDPOINT_SALES, data)].
Proof.
  split; [reflexivity|]. split; [reflexivity|].
  apply (generate_token_never_confirms Sample.stored Sample.password_args
           (Sample.world [Response [] Sample.header_with_id;
                          Response (blit "token") Sample.text_header])
           Sample.password_credentials
           (log (EvGetenv (lit "ITC_ACCESS_TOKEN"))
              (Sample.world [Response [] Sample.header_with_id;
                             Response (blit "token") Sample.text_header]))
           [] Sample.header_with_id [Response (blit "token") Sample.text_header]
           (lit "abc123")); reflexivity.
Defined.

(** The same run, evaluated: [TypeError], one request on the wire, the
    second answer of the server never asked for, the environment read
    twice. *)
Example generate_token_run :
  let run := itc_generate_token Sample.stored Sample.password_args
               (Sample.world [Response [] Sample.header_with_id;
                              Response (blit "token") Sample.text_header]) in
  run.1 = Raise (TypeError (lit "can't concat str to bytes"))
  /\ length (requests (trace run.2)) = 1%nat
  /\ network run.2 = [Response (blit "token") Sample.text_header]
  /\ env_reads (trace run.2) = [lit "ITC_ACCESS_TOKEN"; lit "ITC_ACCESS_TOKEN"]
  /\ printed (trace run.2) = [].
Proof. vm_compute. repeat split; reflexivity. Qed.

(** C3 at a first answer without [service_request_id]. *)
Lemma generate_token_without_request_id_witness :
  get_credentials Sample.password_args
    (Sample.world [Response [] Sample.header_without_id])
  = (Ok Sample.password_credentials,
     log (EvGetenv (lit "ITC_ACCESS_TOKEN"))
       (Sample.world [Response [] Sample.header_without_id]))
  /\ service_request_id Sample.header_without_id = None
  /\ exists e w' data,
       itc_generate_token Sample.stored Sample.password_args
         (Sample.world [Response [] Sample.header_without_id])
       = (Raise e, w')
       /\ (e = KeyError (lit "service_request_id")
           \/ e = AttributeError (lit "'HTTPMessage' object has no attribute 'dict'"))
       /\ requests (trace w') = requests [] ++ [(ENDPOINT_SALES, data)].
Proof.
  split; [reflexivity|]. split; [reflexivity|].
  apply (generate_token_without_request_id Sample.stored Sample.password_args
           (Sample.world [Response [] Sample.header_without_id])
           Sample.password_credentials
           (log (EvGetenv (lit "ITC_ACCESS_TOKEN"))
              (Sample.world [Response [] Sample.header_without_id]))
           [] Sample.header_without_id []); reflexivity.
Defined.

(** C4 at a 404 answer with the body [Unauthorized]. *)
Lemma http_error_mapping_witness :
  network (Sample.world [HTTPError 404 (blit "Unauthorized")])
  = [HTTPError 404 (blit "Unauthorized")]
  /\ (post_request ENDPOINT_SALES Sample.report_credentials (lit "Sales.getVendors") VNone
        (Sample.world [HTTPError 404 (blit "Unauthorized")])).1
     = Raise (ValueError (lit "Unauthorized")).
Proof.
  split; [reflexivity|].
  apply (proj1 (http_error_mapping ENDPOINT_SALES Sample.report_credentials
                  (lit "Sales.getVendors")
                  (Sample.world [HTTPError 404 (blit "Unauthorized")])
                  404%Z (blit "Unauthorized") [] eq_refl)).
  - right; right; right; reflexivity.
  - reflexivity.
Defined.

(** A 500 answer: the generic message, whatever the body. *)
Example http_error_500 :
  (post_request ENDPOINT_SALES Sample.report_credentials (lit "Sales.getVendors") VNone
     (Sample.world [HTTPError 500 (blit "Unauthorized")])).1
  = Raise (ValueError (lit "HTTP Error 500. Did you choose reasonable query arguments?")).
Proof. vm_compute. reflexivity. Qed.

(** A 404 answer whose body is no UTF-8 text has no message to report: the
    decoding of the body raises [UnicodeDecodeError] (a [ValueError] of its
    own in Python). *)
Example http_error_body_not_utf8 :
  (post_request ENDPOINT_SALES Sample.report_credentials (lit "Sales.getVendors") VNone
     (Sample.world [HTTPError 404 (map byte_of [0xFF])])).1
  = Raise UnicodeDecodeError
  /\ forall message,
       (post_request ENDPOINT_SALES Sample.report_credentials (lit "Sales.getVendors") VNone
          (Sample.world [HTTPError 404 (map byte_of [0xFF])])).1
       <> Raise (ValueError message).
Proof.
  assert ((post_request ENDPOINT_SALES Sample.report_credentials (lit "Sales.getVendors")
             VNone (Sample.world [HTTPError 404 (map byte_of [0xFF])])).1
          = Raise UnicodeDecodeError) as H by (vm_compute; reflexivity).
  split; [exact H|]. intros message. rewrite H. discriminate.
Qed.

(** C6 at a weekly report: the file name loses its [.gz]. *)
Lemma gzip_target_filename_witness :
  let header := Sample.gzip_header
                  [(lit "downloadmsg", lit "Successfully downloaded S_W_12345_20230101.txt.gz");
                   (lit "filename", lit "S_W_12345_20230101.txt.gz")] in
  HTTPMessage.get_content_type header = lit "application/a-gzip"
  /\ HTTPMessage.get header (lit "downloadmsg")
     = Some (lit "Successfully downloaded S_W_12345_20230101.txt.gz")
  /\ Sample.stored (blit "report") = Some (blit "report")
  /\ opened (trace (output_result Sample.stored (blit "report", header) true
                      (Sample.world [])).2)
     = [lit "S_W_12345_20230101.txt"].
Proof.
  intros header. split; [reflexivity|]. split; [reflexivity|]. split; [reflexivity|].
  apply (proj1 (gzip_target_filename Sample.stored (blit "report") header (Sample.world [])
                  (lit "Successfully downloaded S_W_12345_20230101.txt.gz")
                  (blit "report") eq_refl eq_refl eq_refl)).
Defined.

(** The whole run on that response. *)
Example gzip_run :
  (output_result Sample.stored
     (blit "report",
      Sample.gzip_header
        [(lit "downloadmsg", lit "Successfully downloaded S_W_12345_20230101.txt.gz");
         (lit "filename", lit "S_W_12345_20230101.txt.gz")]) true (Sample.world [])).2
  = mkWorld ∅ [] [] (fun _ => true)
      [EvOpen (lit "S_W_12345_20230101.txt");
       EvWrite (lit "S_W_12345_20230101.txt") (blit "report");
       EvPrint (lit "Successfully downloaded S_W_12345_20230101.txt")].
Proof. reflexivity. Qed.

(** Without a [filename] header the default name is used. *)
Example gzip_default_filename :
  opened (trace (output_result Sample.stored
                   (blit "report", Sample.gzip_header [(lit "downloadmsg", lit "Done")])
                   true (Sample.world [])).2)
  = [lit "report.txt"].
Proof. reflexivity. Qed.

(** C6 as stated fails on a file name that does not end in [.gz]: for
    [report.txt] the file opened is [report.], where stripping a trailing
    [.gz] leaves [report.txt]. *)
Lemma target_filename_not_ending_in_gz :
  opened (trace (output_result Sample.stored
                   (blit "report",
                    Sample.gzip_header [(lit "downloadmsg", lit "Done");
                                        (lit "filename", lit "report.txt")])
                   true (Sample.world [])).2)
  = [lit "report."]
  /\ strip_gz_suffix (lit "report.txt") = lit "report.txt"
  /\ lit "report." <> strip_gz_suffix (lit "report.txt").
Proof. split; [reflexivity|]. split; [reflexivity|]. discriminate. Qed.

(** C7 at the body [b"OK"] of a text response: [OK] is printed; no file. *)
Lemma text_response_is_printed_witness :
  HTTPMessage.get_content_type Sample.text_header <> lit "application/a-gzip"
  /\ output_result Sample.stored (blit "OK", Sample.text_header) true (Sample.world [])
     = (Ok tt, log (EvPrint (lit "OK")) (Sample.world []))
  /\ opened (trace (output_result Sample.stored (blit "OK", Sample.text_header) true
                      (Sample.world [])).2) = []
  /\ written (trace (output_result Sample.stored (blit "OK", Sample.text_header) true
                       (Sample.world [])).2) = [].
Proof.
  split; [discriminate|].
  apply (text_response_is_printed Sample.stored (blit "OK") Sample.text_header true
           (Sample.world [])).
  discriminate.
Defined.


(** The same run, evaluated: one request, one read of the environment, and
    the [AttributeError] of [header.dict]. *)
Example generate_token_plain_header_run :
  let run := itc_generate_token Sample.stored Sample.password_args
               (Sample.world [Response (blit "OK") Sample.text_header;
                              Response (blit "token") Sample.text_header]) in
  run.1 = Raise (AttributeError (lit "'HTTPMessage' object has no attribute 'dict'"))
  /\ length (requests (trace run.2)) = 1%nat
  /\ env_reads (trace run.2) = [lit "ITC_ACCESS_TOKEN"].
Proof. vm_compute. repeat split; reflexivity. Qed.


(** The command string of that invocation. *)
Example weekly_report_command_string :
  lit "Sales.getReport, " ++ str_of_int 12345 ++ lit ",Sales,Summary," ++ lit "Weekly"
  ++ lit "," ++ lit "20230101"
  = lit "Sales.getReport, 12345,Sales,Summary,Weekly,20230101".
Proof. reflexivity. Qed.

(** C10 at a gzip response without [downloadmsg]. *)
Lemma missing_downloadmsg_fails_before_write_witness :
  HTTPMessage.get_content_type (Sample.gzip_header [(lit "filename", lit "report.txt.gz")])
  = lit "application/a-gzip"
  /\ HTTPMessage.get (Sample.gzip_header [(lit "filename", lit "report.txt.gz")])
       (lit "downloadmsg") = None
  /\ output_result Sample.stored
       (blit "report", Sample.gzip_header [(lit "filename", lit "report.txt.gz")]) true
       (Sample.world [])
     = (Raise (AttributeError (lit "'NoneType' object has no attribute 'replace'")),
        Sample.world []).
Proof.
  split; [reflexivity|]. split; [reflexivity|].
  apply (missing_downloadmsg_fails_before_write Sample.stored (blit "report")
           (Sample.gzip_header [(lit "filename", lit "report.txt.gz")]) (Sample.world []));
    reflexivity.
Defined.

(** * Further properties of the code *)

(** ** The wire format *)

Lemma hex_digit_upper_safe d : d < 16 -> always_safe (hex_digit true d) = true.
Proof.
  intros H. unfold hex_digit, always_safe.
  destruct (d <? 10) eqn:E.
  - apply N.ltb_lt in E.
    assert ((48 <=? 48 + d) && (48 + d <=? 57) = true) as ->.
    { apply andb_true_iff; split; apply N.leb_le; lia. }
    rewrite !orb_true_r. reflexivity.
  - apply N.ltb_ge in E.
    assert ((65 <=? 55 + d) && (55 + d <=? 90) = true) as ->.
    { apply andb_true_iff; split; apply N.leb_le; lia. }
    reflexivity.
Qed.

Lemma percent_hex_form_safe b : forallb form_safe (percent_hex b) = true.
Proof.
  unfold percent_hex, form_safe. cbn [forallb].
  rewrite !hex_digit_upper_safe by apply land15_lt.
  rewrite orb_true_r. reflexivity.
Qed.

Lemma quote_form_safe safe bs :
  (forall b, b ∈ safe -> b = 32) ->
  forallb form_safe
    (map (fun c => if c =? 32 then 43 else c) (flat_map (quote_byte safe) bs)) = true.
Proof.
  intros Hsafe. induction bs as [|b bs IH]; [reflexivity|].
  cbn [flat_map]. rewrite map_app, forallb_app, IH, andb_true_r.
  unfold quote_byte. destruct (always_safe b) eqn:Eb; cbn [orb].
  - cbn [map forallb]. rewrite andb_true_r.
    destruct (b =? 32); [reflexivity|]. unfold form_safe. rewrite Eb. reflexivity.
  - destruct (bool_decide (b ∈ safe)) eqn:Es.
    + apply bool_decide_eq_true_1 in Es. rewrite (Hsafe b Es). reflexivity.
    + assert (map (fun c => if c =? 32 then 43 else c) (percent_hex b) = percent_hex b) as ->.
      { unfold percent_hex. cbn [map]. f_equal. f_equal; [|f_equal].
        - pose proof (hex_digit_upper_safe _ (land15_lt (N.shiftr b 4))) as H.
          destruct (_ =? 32) eqn:E; [|reflexivity].
          apply N.eqb_eq in E. rewrite E in H. discriminate.
        - pose proof (hex_digit_upper_safe _ (land15_lt b)) as H.
          destruct (_ =? 32) eqn:E; [|reflexivity].
          apply N.eqb_eq in E. rewrite E in H. discriminate. }
      apply percent_hex_form_safe.
Qed.

Lemma map_plus_id s : 32 ∉ s -> map (fun c => if c =? 32 then 43 else c) s = s.
Proof.
  induction s as [|c s IH]; [reflexivity|].
  intros H. apply not_elem_of_cons in H as [Hc Hs].
  cbn [map]. rewrite (IH Hs). destruct (c =? 32) eqn:E; [|reflexivity].
  apply N.eqb_eq in E. congruence.
Qed.

Lemma quote_no_space bs : 32 ∉ flat_map (quote_byte []) bs.
Proof.
  induction bs as [|b bs IH]; [apply not_elem_of_nil|].
  cbn [flat_map]. rewrite elem_of_app. intros [H|H]; [|exact (IH H)].
  unfold quote_byte in H. destruct (always_safe b) eqn:Eb; cbn [orb] in H.
  - apply list_elem_of_singleton in H. subst b. discriminate.
  - rewrite bool_decide_eq_false_2 in H by apply not_elem_of_nil.
    unfold percent_hex in H.
    apply elem_of_cons in H as [H|H]; [discriminate|].
    apply elem_of_cons in H as [H|H].
    { pose proof (hex_digit_upper_safe _ (land15_lt (N.shiftr b 4))) as Hs.
      rewrite <- H in Hs. discriminate. }
    apply list_elem_of_singleton in H.
    pose proof (hex_digit_upper_safe _ (land15_lt b)) as Hs.
    rewrite <- H in Hs. discriminate.
Qed.

Lemma quote_plus_form_safe s q :
  quote_plus s = Some q -> forallb form_safe q = true.
Proof.
  unfold quote_plus, quote.
  destruct (encode_utf8_N s) as [bs|]; [|destruct (bool_decide _); discriminate].
  destruct (bool_decide _); cbn; intros [= <-].
  - apply quote_form_safe. intros b Hb. apply list_elem_of_singleton in Hb. exact Hb.
  - rewrite <- (map_plus_id _ (quote_no_space bs)).
    apply quote_form_safe. intros b Hb. apply not_elem_of_nil in Hb. contradiction.
Qed.

(** X1: the request string is the one form field [jsonRequest]. After the
    prefix [jsonRequest=] it holds only letters, digits, [_.-~], the percent
    sign and the plus sign: no [&] and no [=], whatever the credentials and
    the command contain. *)
Theorem request_string_is_one_form_field c query :
  exists v,
    build_json_request_string c query = Ok (blit "jsonRequest=" ++ map byte_of v)
    /\ forallb form_safe v = true
    /\ (38 ∉ v) /\ (61 ∉ v).
Proof.
  unfold build_json_request_string, urlencode, urlencode_items.
  change (quote_plus (lit "jsonRequest")) with (Some (lit "jsonRequest")).
  destruct (quote_plus_ascii (json_dumps (request_object c query)) (json_dumps_ascii _))
    as (v & Hv & Ha).
  rewrite Hv. cbn [mbind option_bind fmap option_fmap option_map join].
  exists v.
  assert (forallb form_safe v = true) as Hs by exact (quote_plus_form_safe _ _ Hv).
  split; [|split; [exact Hs|]].
  - unfold encode_utf8. rewrite encode_utf8_N_ascii.
    + cbn [fmap option_fmap option_map]. rewrite !map_app. reflexivity.
    + rewrite !is_ascii_app, Ha. reflexivity.
  - split; intros Hin; rewrite forallb_forall in Hs;
      apply list_elem_of_In in Hin; apply Hs in Hin; discriminate.
Qed.

(** X2: the request object lists its fields in a fixed order, [userid],
    [version], [mode], [queryInput], then [account], [accesstoken] and
    [password] for those that are not empty, each name once; [version] is
    always [2.2] and a user id that was not given is sent as [null]. *)
Theorem request_object_fields u tok pw acc mode query :
  let request := request_object (u, tok, pw, acc, mode) query in
  map fst request
  = [lit "userid"; lit "version"; lit "mode"; lit "queryInput"]
    ++ (if nonempty acc then [lit "account"] else [])
    ++ (if nonempty tok then [lit "accesstoken"] else [])
    ++ (if nonempty pw then [lit "password"] else [])
  /\ NoDup (map fst request)
  /\ dict_get (lit "version") request = Some (JString (lit "2.2"))
  /\ dict_get (lit "userid") request = Some (from_option JString JNull u)
  /\ dict_get (lit "mode") request = Some (JString mode).
Proof.
  intros request. subst request. unfold request_object.
  destruct (nonempty acc), (nonempty tok), (nonempty pw);
    match goal with
    | |- map fst ?r = ?l /\ _ =>
        assert (map fst r = l) as E by reflexivity;
        split; [exact E|]; rewrite E
    end;
    (split; [| repeat split; reflexivity]);
    vm_compute;
    repeat (apply NoDup_cons_2;
            [rewrite ?elem_of_cons, elem_of_nil; intuition discriminate|]);
    apply NoDup_nil_2.
Qed.

(** ** Credential resolution *)

(** X3: an access token in the environment takes the place of the password.
    When the command line gives no access token and [ITC_ACCESS_TOKEN] is
    set and not empty, the credentials carry that token and an empty
    password, whatever password the command line gives, and nothing is
    asked at the prompt. *)
Theorem environment_token_replaces_password args w token :
  truthy (Namespace.access_token args) = false ->
  environ w !! lit "ITC_ACCESS_TOKEN" = Some token ->
  token <> [] ->
  get_credentials args w
  = (Ok (Namespace.userid args, token, [], str_of_optint (Namespace.account args),
         Namespace.mode args),
     log (EvGetenv (lit "ITC_ACCESS_TOKEN")) w).
Proof.
  intros Harg Henv Htok. apply nonempty_true in Htok.
  unfold get_credentials, if_truthy_else, truthy in *. unfold_M.
  destruct (Namespace.access_token args) as [t|]; [rewrite Harg|];
    cbn; rewrite Henv; cbn; rewrite Htok; reflexivity.
Qed.

(** X4: an access token on the command line settles the credentials without
    a look at the world: the environment is not read, nothing is asked, the
    password is empty. *)
Theorem command_line_token_wins args w token :
  Namespace.access_token args = Some token ->
  token <> [] ->
  get_credentials args w
  = (Ok (Namespace.userid args, token, [], str_of_optint (Namespace.account args),
         Namespace.mode args), w).
Proof.
  intros Harg Htok. apply nonempty_true in Htok.
  unfold get_credentials, if_truthy_else. unfold_M.
  rewrite Harg, Htok. cbn. rewrite Htok. reflexivity.
Qed.

(** X5: the password is asked for exactly when there is neither an access
    token (command line or environment) nor a password on the command line.
    The line typed is the password as it is, an empty line included; with
    nothing to read the resolution ends in [EOFError]. *)
Theorem password_prompt args w :
  truthy (Namespace.access_token args) = false ->
  default [] (environ w !! lit "ITC_ACCESS_TOKEN") = [] ->
  (truthy (Namespace.password args) = false ->
     get_credentials args w
     = match stdin w with
       | [] =>
           (Raise EOFError,
            log (EvInput (lit "iTunes Connect password"))
              (log (EvGetenv (lit "ITC_ACCESS_TOKEN")) w))
       | line :: rest =>
           (Ok (Namespace.userid args, [], line, str_of_optint (Namespace.account args),
                Namespace.mode args),
            log (EvInput (lit "iTunes Connect password"))
              (mkWorld (environ w) rest (network w) (writable w)
                 (trace w ++ [EvGetenv (lit "ITC_ACCESS_TOKEN")])))
       end)
  /\ (forall password, Namespace.password args = Some password -> password <> [] ->
        get_credentials args w
        = (Ok (Namespace.userid args, [], password,
               str_of_optint (Namespace.account args), Namespace.mode args),
           log (EvGetenv (lit "ITC_ACCESS_TOKEN")) w)).
Proof.
  intros Harg Henv. split.
  - intros Hpw.
    unfold get_credentials, if_truthy_else, truthy in *. unfold_M.
    destruct (Namespace.access_token args) as [t|]; [rewrite Harg|];
      cbn; rewrite Henv; cbn;
      (destruct (Namespace.password args) as [p|]; [rewrite Hpw|]);
      cbn; destruct (stdin w); reflexivity.
  - intros password Hpw Hne. apply nonempty_true in Hne.
    unfold get_credentials, if_truthy_else, truthy in *. unfold_M.
    destruct (Namespace.access_token args) as [t|]; [rewrite Harg|];
      cbn; rewrite Henv; cbn; rewrite Hpw, Hne; reflexivity.
Qed.

(** X6: when the credentials cannot be resolved no command goes any
    further: it raises [EOFError] and has sent, written and printed
    nothing. *)
Theorem no_request_without_credentials zlib cmd args w e w1 :
  get_credentials args w = (Raise e, w1) ->
  func zlib cmd args w = (Raise EOFError, w1)
  /\ requests (trace w1) = requests (trace w)
  /\ written (trace w1) = written (trace w)
  /\ printed (trace w1) = printed (trace w).
Proof.
  intros Hc.
  destruct (get_credentials_frame _ _ _ _ Hc)
    as (_ & _ & _ & evs & Ht & Hr & _ & Hw & Hp & _).
  pose proof (get_credentials_raises _ _ _ _ Hc) as ->.
  split.
  - destruct cmd; cbn [func];
      unfold itc_get_status, itc_get_accounts, itc_get_vendors, itc_get_vendor_and_regions,
        itc_get_sales_report, itc_generate_token, itc_view_token, itc_delete_token;
      rewrite bind_unfold, Hc; reflexivity.
  - unfold requests, written, printed in *.
    rewrite Ht, !omap_app, Hr, Hw, Hp, !app_nil_r. auto.
Qed.

(** ** The commands and their requests *)

(** What a single-leg run adds to the trace holds at most one request, to
    the endpoint of the command. *)
Lemma single_leg_at_most_one zlib endpoint command args w :
  exists evs,
    trace ((c ← get_credentials args;
            r ← post_request endpoint c command VNone;
            output_result zlib r true) w).2 = trace w ++ evs
    /\ (requests evs = [] \/ exists data, requests evs = [(endpoint, data)]).
Proof.
  rewrite bind_unfold.
  destruct (get_credentials args w) as [[c|e] w1] eqn:Hc;
    destruct (get_credentials_frame _ _ _ _ Hc) as (_ & _ & _ & evs & Ht & Hr & _).
  2: { exists evs. auto. }
  destruct (post_request_no_params endpoint c command w1) as (data & _ & Hq).
  rewrite bind_unfold, Hq.
  assert (requests (evs ++ [request_sent endpoint data]) = [(endpoint, data)]) as Hone.
  { rewrite requests_app, Hr. reflexivity. }
  destruct (network w1) as [|o rest].
  { exists (evs ++ [request_sent endpoint data]). cbn. rewrite Ht, <- app_assoc. eauto. }
  destruct (handle_outcome o) as [r|e].
  2: { exists (evs ++ [request_sent endpoint data]). cbn. rewrite Ht, <- app_assoc. eauto. }
  destruct (output_result zlib r true _) as [res w3] eqn:Ho.
  apply output_result_frame in Ho as (_ & _ & _ & evs3 & Ht3 & Hr3 & _).
  cbn in *. exists ((evs ++ [request_sent endpoint data]) ++ evs3).
  rewrite Ht3, Ht, <- !app_assoc. split; [reflexivity|]. right. exists data.
  rewrite app_assoc, requests_app, Hone, Hr3. reflexivity.
Qed.

Lemma printed_app t u : printed (t ++ u) = printed t ++ printed u.
Proof. apply omap_app. Qed.

Lemma written_app t u : written (t ++ u) = written t ++ written u.
Proof. apply omap_app. Qed.

(** [generateToken] never returns: every run ends in an exception, after at
    most one request, which goes to the sales endpoint. *)
Lemma generate_token_always_raises zlib args w :
  exists e w' evs,
    itc_generate_token zlib args w = (Raise e, w')
    /\ trace w' = trace w ++ evs
    /\ (requests evs = [] \/ exists data, requests evs = [(ENDPOINT_SALES, data)])
    /\ printed evs = [] /\ written evs = [].
Proof.
  unfold itc_generate_token. rewrite bind_unfold.
  destruct (get_credentials args w) as [[c|e] w1] eqn:Hc;
    destruct (get_credentials_frame _ _ _ _ Hc)
      as (_ & _ & _ & evs & Ht & Hr & _ & Hw & Hp & _).
  2: { exists e, w1, evs. auto 6. }
  destruct (post_request_no_params ENDPOINT_SALES c (lit "Sales.generateToken") w1)
    as (data & _ & Hq).
  rewrite bind_unfold, Hq.
  assert (requests (evs ++ [request_sent ENDPOINT_SALES data]) = [(ENDPOINT_SALES, data)]
          /\ printed (evs ++ [request_sent ENDPOINT_SALES data]) = []
          /\ written (evs ++ [request_sent ENDPOINT_SALES data]) = []) as (Hone & Hp1 & Hw1).
  { rewrite requests_app, printed_app, written_app, Hr, Hp, Hw. auto. }
  destruct (network w1) as [|o rest].
  { eexists _, _, (evs ++ [request_sent ENDPOINT_SALES data]).
    split; [reflexivity|]. cbn. rewrite Ht, <- app_assoc. eauto 6. }
  destruct (handle_outcome o) as [[content header]|e].
  2: { eexists _, _, (evs ++ [request_sent ENDPOINT_SALES data]).
       split; [reflexivity|]. cbn. rewrite Ht, <- app_assoc. eauto 6. }
  rewrite bind_unfold, header_dict_item_service_request_id.
  destruct (service_request_id header) as [id|].
  2: { eexists _, _, (evs ++ [request_sent ENDPOINT_SALES data]).
       split; [reflexivity|]. cbn. rewrite Ht, <- app_assoc. eauto 6. }
  rewrite bind_unfold.
  match goal with
  | |- context [get_credentials args ?w2] =>
      destruct (get_credentials args w2) as [[c2|e2] w3] eqn:Hc2;
      destruct (get_credentials_frame _ _ _ _ Hc2)
        as (_ & _ & _ & evs2 & Ht2 & Hr2 & _ & Hw2 & Hp2 & _)
  end.
  - rewrite bind_unfold, post_request_str_params by reflexivity.
    eexists _, w3, ((evs ++ [request_sent ENDPOINT_SALES data]) ++ evs2).
    split; [reflexivity|]. cbn in Ht2. rewrite Ht2, Ht, <- !app_assoc.
    split; [reflexivity|]. rewrite !app_assoc.
    rewrite requests_app, printed_app, written_app, Hone, Hr2, Hp1, Hp2, Hw1, Hw2.
    eauto 6.
  - eexists _, w3, ((evs ++ [request_sent ENDPOINT_SALES data]) ++ evs2).
    split; [reflexivity|]. cbn in Ht2. rewrite Ht2, Ht, <- !app_assoc.
    split; [reflexivity|]. rewrite !app_assoc.
    rewrite requests_app, printed_app, written_app, Hone, Hr2, Hp1, Hp2, Hw1, Hw2.
    eauto 6.
Qed.

(** X7: one invocation of any command sends at most one HTTP request, and
    that request goes to the sales endpoint or to the finance endpoint. *)
Theorem at_most_one_request zlib cmd args w :
  exists evs,
    trace (func zlib cmd args w).2 = trace w ++ evs
    /\ (requests evs = []
        \/ exists data, requests evs = [(ENDPOINT_SALES, data)]
                        \/ requests evs = [(ENDPOINT_FINANCE, data)]).
Proof.
  assert (forall endpoint command,
            (endpoint = ENDPOINT_SALES \/ endpoint = ENDPOINT_FINANCE) ->
            exists evs,
              trace ((c ← get_credentials args;
                      r ← post_request endpoint c command VNone;
                      output_result zlib r true) w).2 = trace w ++ evs
              /\ (requests evs = []
                  \/ exists data, requests evs = [(ENDPOINT_SALES, data)]
                                  \/ requests evs = [(ENDPOINT_FINANCE, data)])) as Hleg.
  { intros endpoint command He.
    destruct (single_leg_at_most_one zlib endpoint command args w) as (evs & Ht & Hr).
    exists evs. split; [exact Ht|].
    destruct Hr as [Hr|[data Hr]]; [auto|]. right. exists data.
    destruct He as [-> | ->]; auto. }
  destruct cmd; cbn [func].
  - apply Hleg. destruct (str_eqb _ _); auto.
  - apply Hleg. destruct (str_eqb _ _); auto.
  - apply Hleg. auto.
  - apply Hleg. auto.
  - apply Hleg. auto.
  - destruct (generate_token_always_raises zlib args w) as (e & w' & evs & -> & Ht & Hr & _).
    exists evs. split; [exact Ht|]. destruct Hr as [Hr|[data Hr]]; eauto.
  - apply Hleg. auto.
  - apply Hleg. auto.
Qed.

(** X8: [getStatus] and [getAccounts] choose the endpoint by the [service]
    argument: the sales endpoint for exactly [Sales], the finance endpoint
    for any other value; the command string is the service name followed by
    [.getStatus] or [.getAccounts]. *)
Theorem service_selects_endpoint zlib args w c w1 :
  get_credentials args w = (Ok c, w1) ->
  let endpoint := if bool_decide (Namespace.service args = lit "Sales")
                  then ENDPOINT_SALES else ENDPOINT_FINANCE in
  (exists data,
     build_json_request_string c
       (lit "[p=Reporter.properties, " ++ (Namespace.service args ++ lit ".getStatus") ++ lit "]")
     = Ok data
     /\ requests (trace (itc_get_status zlib args w).2)
        = requests (trace w) ++ [(endpoint, data)])
  /\ (exists data,
        build_json_request_string c
          (lit "[p=Reporter.properties, " ++ (Namespace.service args ++ lit ".getAccounts")
           ++ lit "]")
        = Ok data
        /\ requests (trace (itc_get_accounts zlib args w).2)
           = requests (trace w) ++ [(endpoint, data)]).
Proof.
  intros Hc endpoint. split.
  - exact (single_leg_requests zlib endpoint (Namespace.service args ++ lit ".getStatus")
             args w c w1 Hc).
  - exact (single_leg_requests zlib endpoint (Namespace.service args ++ lit ".getAccounts")
             args w c w1 Hc).
Qed.

(** ** Response processing *)

(** X10: with [unzip] false a gzip response is stored as it came: the body
    unchanged, under the metadata file name (or [report.txt.gz]) unchanged,
    and the message printed unchanged; a missing message does not fail, it
    prints [None]. *)
Theorem gzip_kept_compressed zlib content header w :
  HTTPMessage.get_content_type header = lit "application/a-gzip" ->
  let name := or_default (HTTPMessage.get header (lit "filename")) (lit "report.txt.gz") in
  writable w name = true ->
  (output_result zlib (content, header) false w).1 = Ok tt
  /\ written (trace (output_result zlib (content, header) false w).2)
     = written (trace w) ++ [(name, content)]
  /\ printed (trace (output_result zlib (content, header) false w).2)
     = printed (trace w)
       ++ [from_option id (lit "None") (HTTPMessage.get header (lit "downloadmsg"))].
Proof.
  intros Hct name Hw. unfold output_result. rewrite Hct.
  change (str_eqb (lit "application/a-gzip") (lit "application/a-gzip")) with true.
  cbv iota. fold name. unfold mbind, M_bind, mret, M_ret, write_file. cbv beta iota.
  rewrite Hw. unfold print, emit, log. cbn [fst snd trace].
  rewrite <- !app_assoc, !written_app, !printed_app. cbn. rewrite ?app_nil_r. auto.
Qed.

(** ** Validation of the command line *)

Lemma account_required_iff cmd :
  account_required cmd = true <-> cmd = Some getVendors \/ cmd = Some getVendorsAndRegions.
Proof.
  destruct cmd as [[]|]; vm_compute; split; intros H;
    try reflexivity; try discriminate; auto; destruct H; discriminate.
Qed.

(** X11: the validation asks for an account for [getVendors] and
    [getVendorsAndRegions] and for no other command: it fails with the
    account message exactly when one of these two commands comes without an
    account or with account zero. *)
Theorem account_needed_for_vendor_commands strptime cmd args :
  validate_arguments strptime cmd args
  = Raise (ValueError (lit "Error: Argument -a/--account is needed for command '"
                       ++ from_option command_name (lit "None") cmd ++ lit "'"))
  <-> no_account args = true /\ (cmd = Some getVendors \/ cmd = Some getVendorsAndRegions).
Proof.
  rewrite <- account_required_iff. unfold validate_arguments.
  destruct (no_account args), (account_required cmd) eqn:Er; cbn [andb];
    split; try (intros [? ?]; discriminate); try (intros; split; reflexivity);
    try reflexivity;
    (destruct cmd as [[]|]; try discriminate;
     repeat match goal with
            | |- context [str_eqb ?a ?b] => destruct (str_eqb a b)
            end;
     destruct (strptime _ _); try discriminate;
     intros H; injection H as H; vm_compute in H; discriminate).
Qed.

(** X12: the date of a sales report is checked against one format only,
    chosen by the report type: [%Y] for [Yearly], [%Y%m] for [Monthly] and
    [%Y%m%d] for every other type. A weekly date is checked like a daily
    one; that the day is a Sunday is not checked. *)
Theorem report_date_format strptime args :
  let date_format :=
    if bool_decide (Namespace.datetype args = lit "Yearly") then lit "%Y"
    else if bool_decide (Namespace.datetype args = lit "Monthly") then lit "%Y%m"
    else lit "%Y%m%d" in
  validate_arguments strptime (Some getSalesReport) args = Ok tt
  <-> strptime (Namespace.date args) date_format = true.
Proof.
  unfold validate_arguments, str_eqb.
  change (account_required (Some getSalesReport)) with false. rewrite andb_false_r.
  destruct (bool_decide (Namespace.datetype args = lit "Weekly")),
    (bool_decide (Namespace.datetype args = lit "Monthly")),
    (bool_decide (Namespace.datetype args = lit "Yearly"));
    cbv zeta iota; destruct (strptime _ _); split; intros; try reflexivity; discriminate.
Qed.

(** X13: a vendor command that has passed the validation sends the account
    it was given, a number other than zero, in decimal. *)
Theorem validated_vendor_command_sends_account strptime cmd args w c w1 query :
  cmd = getVendors \/ cmd = getVendorsAndRegions ->
  validate_arguments strptime (Some cmd) args = Ok tt ->
  get_credentials args w = (Ok c, w1) ->
  exists z, Namespace.account args = Some z /\ z <> 0%Z
    /\ dict_get (lit "account") (request_object c query) = Some (JString (str_of_int z)).
Proof.
  intros Hcmd Hv Hc.
  assert (no_account args = false) as Hn.
  { destruct (no_account args) eqn:E; [|reflexivity].
    assert (validate_arguments strptime (Some cmd) args
            = Raise (ValueError (lit "Error: Argument -a/--account is needed for command '"
                                 ++ from_option command_name (lit "None") (Some cmd)
                                 ++ lit "'"))) as Hr.
    { unfold validate_arguments. rewrite E.
      destruct Hcmd as [-> | ->]; reflexivity. }
    rewrite Hv in Hr. discriminate. }
  unfold no_account in Hn. destruct (Namespace.account args) as [z|] eqn:Ez; [|discriminate].
  exists z. split; [reflexivity|]. split.
  - intros ->. discriminate.
  - destruct c as [[[[u tok] pw] acc] mode].
    apply get_credentials_returns in Hc as (_ & -> & _).
    rewrite request_object_account, str_of_optint_nonempty, Ez. reflexivity.
Qed.

(** ** The main program *)

(** When the first request of a command ends in an exception, so does the
    command, with nothing written and nothing printed. *)
Lemma first_request_raises zlib cmd args w c w1 o rest e :
  get_credentials args w = (Ok c, w1) ->
  network w = o :: rest ->
  handle_outcome o = Raise e ->
  exists w',
    func zlib cmd args w = (Raise e, w')
    /\ printed (trace w') = printed (trace w)
    /\ written (trace w') = written (trace w).
Proof.
  intros Hc Hnet Ho.
  destruct (get_credentials_frame _ _ _ _ Hc)
    as (_ & Hn & _ & evs & Ht & _ & _ & Hw & Hp & _).
  assert (forall endpoint command (k : bytes * HTTPMessage.t -> M unit),
            exists w',
              (c ← get_credentials args;
               r ← post_request endpoint c command VNone;
               k r) w = (Raise e, w')
              /\ printed (trace w') = printed (trace w)
              /\ written (trace w') = written (trace w)) as Hleg.
  { intros endpoint command k.
    destruct (post_request_no_params endpoint c command w1) as (data & _ & Hq).
    rewrite Hn, Hnet, Ho in Hq.
    rewrite bind_unfold, Hc, bind_unfold, Hq.
    eexists. split; [reflexivity|]. cbn.
    rewrite Ht, <- app_assoc, printed_app, written_app, printed_app, written_app, Hp, Hw.
    cbn. rewrite !app_nil_r. auto. }
  destruct cmd; cbn [func]; apply Hleg.
Qed.

(** What a single-leg command does with a response: it hands it to
    [output_result], in a world that has seen the request go out. *)
Lemma first_response_processed zlib cmd args w c w1 content header rest :
  cmd <> generateToken ->
  get_credentials args w = (Ok c, w1) ->
  network w = Response content header :: rest ->
  exists w2,
    func zlib cmd args w = output_result zlib (content, header) true w2
    /\ writable w2 = writable w
    /\ printed (trace w2) = printed (trace w)
    /\ written (trace w2) = written (trace w).
Proof.
  intros Hcmd Hc Hnet.
  destruct (get_credentials_frame _ _ _ _ Hc)
    as (_ & Hn & Hwr & evs & Ht & _ & _ & Hw & Hp & _).
  destruct (single_leg_shape zlib cmd Hcmd) as (endpoint & command & ->).
  destruct (post_request_no_params (endpoint args) c (command args) w1) as (data & _ & Hq).
  rewrite Hn, Hnet in Hq. cbn [handle_outcome] in Hq.
  rewrite bind_unfold, Hc, bind_unfold, Hq.
  eexists. split; [reflexivity|]. cbn. split; [exact Hwr|].
  rewrite Ht, <- app_assoc, printed_app, written_app, printed_app, written_app, Hp, Hw.
  cbn. rewrite !app_nil_r. auto.
Qed.

(** X14: an HTTP error answer to the request of a command is reported and
    nothing else happens. For status 400, 401, 403 or 404 with a text body
    the program prints that text, for any other status the generic message
    with the status; it writes no file and exits with [-1]. *)
Theorem http_error_is_reported zlib strptime text cmd args w c w1 code body rest :
  validate_arguments strptime (Some cmd) args = Ok tt ->
  get_credentials args w = (Ok c, w1) ->
  network w = HTTPError code body :: rest ->
  forall message,
    (rejected_status code = true /\ decode_utf8 body = Some message)
    \/ (rejected_status code = false
        /\ message = lit "HTTP Error " ++ str_of_int code
                      ++ lit ". Did you choose reasonable query arguments?") ->
    exists w',
      main zlib strptime text (Some cmd) args w = (Exit (-1), w')
      /\ printed (trace w') = printed (trace w) ++ [message]
      /\ written (trace w') = written (trace w).
Proof.
  intros Hv Hc Hnet message Hm.
  destruct (first_request_raises zlib cmd args w c w1 _ rest (ValueError message) Hc Hnet)
    as (w' & Hf & Hp & Hw).
  { cbn. destruct Hm as [[-> ->] | [-> ->]]; reflexivity. }
  unfold main. rewrite Hv, Hf. cbn [is_ValueError exn_text].
  eexists. split; [reflexivity|]. cbn.
  rewrite printed_app, written_app, Hp, Hw. cbn. rewrite app_nil_r. auto.
Qed.

(** X15: a failure of the connection is not reported by the program: the
    [URLError] is no [ValueError], the handler of the main block lets it
    pass, and the run ends in an uncaught exception with nothing printed. *)
Theorem connection_failure_is_uncaught zlib strptime text cmd args w c w1 rest :
  validate_arguments strptime (Some cmd) args = Ok tt ->
  get_credentials args w = (Ok c, w1) ->
  network w = ConnectionFailure :: rest ->
  exists w',
    main zlib strptime text (Some cmd) args w = (Uncaught URLError, w')
    /\ printed (trace w') = printed (trace w).
Proof.
  intros Hv Hc Hnet.
  destruct (first_request_raises zlib cmd args w c w1 _ rest URLError Hc Hnet eq_refl)
    as (w' & Hf & Hp & _).
  unfold main. rewrite Hv, Hf. cbn [is_ValueError]. eauto.
Qed.

(** X16: [generateToken] never ends well. Whatever the server answers and
    whatever is typed, the program does not exit with 0; when it ends in an
    uncaught exception it has printed nothing. *)
Theorem generate_token_never_exits_zero zlib strptime text args w :
  (main zlib strptime text (Some generateToken) args w).1 <> Exit 0
  /\ (forall e, (main zlib strptime text (Some generateToken) args w).1 = Uncaught e ->
        printed (trace (main zlib strptime text (Some generateToken) args w).2)
        = printed (trace w)).
Proof.
  destruct (generate_token_always_raises zlib args w)
    as (e & w' & evs & Hg & Ht & _ & Hp & _).
  unfold main.
  destruct (validate_arguments strptime (Some generateToken) args);
    [|split; [discriminate|intros; reflexivity]].
  cbn [func]. rewrite Hg.
  destruct (is_ValueError e); split; try discriminate.
  intros _ _. cbn. rewrite Ht, printed_app, Hp, app_nil_r. reflexivity.
Qed.

(** X17: a command whose request is answered with text prints that text,
    writes no file and exits with 0. *)
Theorem text_answer_exits_zero zlib strptime text cmd args w c w1 content header rest body :
  cmd <> generateToken ->
  validate_arguments strptime (Some cmd) args = Ok tt ->
  get_credentials args w = (Ok c, w1) ->
  network w = Response content header :: rest ->
  HTTPMessage.get_content_type header <> lit "application/a-gzip" ->
  decode_utf8 content = Some body ->
  exists w',
    main zlib strptime text (Some cmd) args w = (Exit 0, w')
    /\ printed (trace w') = printed (trace w) ++ [body]
    /\ written (trace w') = written (trace w).
Proof.
  intros Hcmd Hv Hc Hnet Hct Hd.
  destruct (first_response_processed zlib cmd args w c w1 content header rest Hcmd Hc Hnet)
    as (w2 & Hf & _ & Hp & Hw).
  unfold main. rewrite Hv, Hf.
  unfold output_result, str_eqb. rewrite bool_decide_eq_false_2 by exact Hct.
  rewrite Hd. unfold print, emit. eexists. split; [reflexivity|]. cbn.
  rewrite printed_app, written_app, Hp, Hw. cbn. rewrite app_nil_r. auto.
Qed.

(** X18: a command whose request is answered with a gzip report that
    inflates stores the inflated report under the metadata file name
    without its last three characters, prints the message with [.txt.gz]
    turned into [.txt], and exits with 0. *)
Theorem report_download_exits_zero zlib strptime text cmd args w c w1
    content header rest msg data :
  cmd <> generateToken ->
  validate_arguments strptime (Some cmd) args = Ok tt ->
  get_credentials args w = (Ok c, w1) ->
  network w = Response content header :: rest ->
  HTTPMessage.get_content_type header = lit "application/a-gzip" ->
  HTTPMessage.get header (lit "downloadmsg") = Some msg ->
  zlib content = Some data ->
  let name := slice_to_minus3
                (or_default (HTTPMessage.get header (lit "filename")) (lit "report.txt.gz")) in
  writable w name = true ->
  exists w',
    main zlib strptime text (Some cmd) args w = (Exit 0, w')
    /\ written (trace w') = written (trace w) ++ [(name, data)]
    /\ printed (trace w')
       = printed (trace w) ++ [replace (lit ".txt.gz") (lit ".txt") msg].
Proof.
  intros Hcmd Hv Hc Hnet Hct Hmsg Hz name Hwr.
  destruct (first_response_processed zlib cmd args w c w1 content header rest Hcmd Hc Hnet)
    as (w2 & Hf & Hw2 & Hp & Hw).
  unfold main. rewrite Hv, Hf.
  rewrite (output_result_gzip zlib content header w2 msg data Hct Hmsg Hz).
  fold name. rewrite Hw2, Hwr. eexists. split; [reflexivity|]. cbn.
  rewrite !printed_app, !written_app, Hp, Hw. cbn. rewrite !app_nil_r. auto.
Qed.

(** X19: a vendor command without an account is turned down before
    anything happens: the run ends in the usage error with the account
    message, and the world is as it was. *)
Theorem vendor_command_without_account zlib strptime text cmd args w :
  cmd = getVendors \/ cmd = getVendorsAndRegions ->
  no_account args = true ->
  main zlib strptime text (Some cmd) args w
  = (UsageError (lit "Error: Argument -a/--account is needed for command '"
                 ++ command_name cmd ++ lit "'"), w).
Proof.
  intros Hcmd Hn. unfold main, validate_arguments. rewrite Hn.
  destruct Hcmd as [-> | ->]; reflexivity.
Qed.

(** X20: a gzip report that does not inflate ends the program in the
    uncaught error of [zlib.decompress]: no message is printed and no file is
    written. *)
Theorem corrupt_report_is_uncaught zlib strptime text cmd args w c w1
    content header rest msg :
  cmd <> generateToken ->
  validate_arguments strptime (Some cmd) args = Ok tt ->
  get_credentials args w = (Ok c, w1) ->
  network w = Response content header :: rest ->
  HTTPMessage.get_content_type header = lit "application/a-gzip" ->
  HTTPMessage.get header (lit "downloadmsg") = Some msg ->
  zlib content = None ->
  exists w',
    main zlib strptime text (Some cmd) args w = (Uncaught ZlibError, w')
    /\ printed (trace w') = printed (trace w)
    /\ written (trace w') = written (trace w).
Proof.
  intros Hcmd Hv Hc Hnet Hct Hmsg Hz.
  destruct (first_response_processed zlib cmd args w c w1 content header rest Hcmd Hc Hnet)
    as (w2 & Hf & _ & Hp & Hw).
  unfold main. rewrite Hv, Hf.
  unfold output_result. rewrite Hct, Hmsg. unfold_M. cbn. rewrite Hz. cbn. eauto.
Qed.

(** ** The further properties at concrete inputs *)

(** X3 at [-P secret] with a token in the environment. *)
Lemma environment_token_replaces_password_witness :
  truthy (Namespace.access_token Sample.password_args) = false
  /\ environ (Demo.token_world (lit "envtok") []) !! lit "ITC_ACCESS_TOKEN"
     = Some (lit "envtok")
  /\ lit "envtok" <> []
  /\ get_credentials Sample.password_args (Demo.token_world (lit "envtok") [])
     = (Ok (Some (lit "me@example.com"), lit "envtok", [], lit "None", lit "Normal"),
        log (EvGetenv (lit "ITC_ACCESS_TOKEN")) (Demo.token_world (lit "envtok") [])).
Proof.
  split; [reflexivity|]. split; [reflexivity|]. split; [discriminate|].
  apply (environment_token_replaces_password Sample.password_args
           (Demo.token_world (lit "envtok") []) (lit "envtok"));
    [reflexivity | reflexivity | discriminate].
Defined.

(** X4 at [-T tok] with another token in the environment. *)
Lemma command_line_token_wins_witness :
  Namespace.access_token Sample.report_args = Some (lit "tok")
  /\ lit "tok" <> []
  /\ get_credentials Sample.report_args (Demo.token_world (lit "envtok") [])
     = (Ok Sample.report_credentials, Demo.token_world (lit "envtok") []).
Proof.
  split; [reflexivity|]. split; [discriminate|].
  apply (command_line_token_wins Sample.report_args (Demo.token_world (lit "envtok") [])
           (lit "tok")); [reflexivity | discriminate].
Defined.

(** X5 at a command line without token and password, the password typed. *)
Lemma password_prompt_witness :
  truthy (Namespace.access_token Demo.bare_args) = false
  /\ default [] (environ (Demo.typing_world [lit "typed"] []) !! lit "ITC_ACCESS_TOKEN") = []
  /\ truthy (Namespace.password Demo.bare_args) = false
  /\ (get_credentials Demo.bare_args (Demo.typing_world [lit "typed"] [])).1
     = Ok (Some (lit "me@example.com"), [], lit "typed", lit "None", lit "Normal").
Proof.
  split; [reflexivity|]. split; [reflexivity|]. split; [reflexivity|].
  rewrite (proj1 (password_prompt Demo.bare_args (Demo.typing_world [lit "typed"] [])
                    eq_refl eq_refl) eq_refl).
  reflexivity.
Defined.

(** X6 at [viewToken] with nothing to read at the prompt. *)
Lemma no_request_without_credentials_witness :
  get_credentials Demo.bare_args (Demo.typing_world [] [Response (blit "OK") Sample.text_header])
  = (Raise EOFError,
     log (EvInput (lit "iTunes Connect password"))
       (log (EvGetenv (lit "ITC_ACCESS_TOKEN"))
          (Demo.typing_world [] [Response (blit "OK") Sample.text_header])))
  /\ requests (trace (func Sample.stored viewToken Demo.bare_args
                        (Demo.typing_world [] [Response (blit "OK") Sample.text_header])).2)
     = [].
Proof.
  split; [reflexivity|].
  destruct (no_request_without_credentials Sample.stored viewToken Demo.bare_args
              (Demo.typing_world [] [Response (blit "OK") Sample.text_header]) EOFError _ eq_refl)
    as (-> & H & _).
  exact H.
Defined.

(** X8 at [getStatus Finance]. *)
Lemma service_selects_endpoint_witness :
  get_credentials Demo.status_args (Sample.world [Response (blit "OK") Sample.text_header])
  = (Ok Demo.status_credentials, Sample.world [Response (blit "OK") Sample.text_header])
  /\ exists data,
       build_json_request_string Demo.status_credentials
         (lit "[p=Reporter.properties, Finance.getStatus]") = Ok data
       /\ requests (trace (itc_get_status Sample.stored Demo.status_args
                             (Sample.world [Response (blit "OK") Sample.text_header])).2)
          = [] ++ [(ENDPOINT_FINANCE, data)].
Proof.
  split; [reflexivity|].
  apply (proj1 (service_selects_endpoint Sample.stored Demo.status_args
                  (Sample.world [Response (blit "OK") Sample.text_header])
                  Demo.status_credentials
                  (Sample.world [Response (blit "OK") Sample.text_header]) eq_refl)).
Defined.

(** X10 at a gzip response without message. *)
Lemma gzip_kept_compressed_witness :
  HTTPMessage.get_content_type (Sample.gzip_header [(lit "filename", lit "report.txt.gz")])
  = lit "application/a-gzip"
  /\ writable (Sample.world []) (lit "report.txt.gz") = true
  /\ written (trace (output_result Sample.stored
                       (blit "raw", Sample.gzip_header [(lit "filename", lit "report.txt.gz")])
                       false (Sample.world [])).2)
     = [(lit "report.txt.gz", blit "raw")]
  /\ printed (trace (output_result Sample.stored
                       (blit "raw", Sample.gzip_header [(lit "filename", lit "report.txt.gz")])
                       false (Sample.world [])).2)
     = [lit "None"].
Proof.
  split; [reflexivity|]. split; [reflexivity|].
  apply (proj2 (gzip_kept_compressed Sample.stored (blit "raw")
                  (Sample.gzip_header [(lit "filename", lit "report.txt.gz")])
                  (Sample.world []) eq_refl eq_refl)).
Defined.

(** X13 at [getVendors] with account 42. *)
Lemma validated_vendor_command_sends_account_witness :
  validate_arguments Demo.digits (Some getVendors) Demo.vendor_args = Ok tt
  /\ get_credentials Demo.vendor_args (Sample.world []) = (Ok Demo.vendor_credentials, Sample.world [])
  /\ exists z, Namespace.account Demo.vendor_args = Some z /\ z <> 0%Z
       /\ dict_get (lit "account") (request_object Demo.vendor_credentials (lit "q"))
          = Some (JString (str_of_int z)).
Proof.
  split; [reflexivity|]. split; [reflexivity|].
  apply (validated_vendor_command_sends_account Demo.digits getVendors Demo.vendor_args
           (Sample.world []) Demo.vendor_credentials (Sample.world []) (lit "q"));
    [left; reflexivity | reflexivity | reflexivity].
Defined.

(** X14 at [getVendors] answered with 404 and [Unauthorized]. *)
Lemma http_error_is_reported_witness :
  validate_arguments Demo.digits (Some getVendors) Demo.vendor_args = Ok tt
  /\ get_credentials Demo.vendor_args (Sample.world [HTTPError 404 (blit "Unauthorized")])
     = (Ok Demo.vendor_credentials, Sample.world [HTTPError 404 (blit "Unauthorized")])
  /\ exists w',
       main Sample.stored Demo.digits Demo.codec_text (Some getVendors) Demo.vendor_args
         (Sample.world [HTTPError 404 (blit "Unauthorized")]) = (Exit (-1), w')
       /\ printed (trace w') = [] ++ [lit "Unauthorized"]
       /\ written (trace w') = [].
Proof.
  split; [reflexivity|]. split; [reflexivity|].
  apply (http_error_is_reported Sample.stored Demo.digits Demo.codec_text getVendors
           Demo.vendor_args (Sample.world [HTTPError 404 (blit "Unauthorized")])
           Demo.vendor_credentials (Sample.world [HTTPError 404 (blit "Unauthorized")])
           404%Z (blit "Unauthorized") [] eq_refl eq_refl eq_refl (lit "Unauthorized")).
  left. split; reflexivity.
Defined.

(** X15 at [getVendors] with the connection failing. *)
Lemma connection_failure_is_uncaught_witness :
  validate_arguments Demo.digits (Some getVendors) Demo.vendor_args = Ok tt
  /\ get_credentials Demo.vendor_args (Sample.world [ConnectionFailure])
     = (Ok Demo.vendor_credentials, Sample.world [ConnectionFailure])
  /\ exists w',
       main Sample.stored Demo.digits Demo.codec_text (Some getVendors) Demo.vendor_args
         (Sample.world [ConnectionFailure]) = (Uncaught URLError, w')
       /\ printed (trace w') = [].
Proof.
  split; [reflexivity|]. split; [reflexivity|].
  apply (connection_failure_is_uncaught Sample.stored Demo.digits Demo.codec_text getVendors
           Demo.vendor_args (Sample.world [ConnectionFailure])
           Demo.vendor_credentials (Sample.world [ConnectionFailure]) [] eq_refl eq_refl eq_refl).
Defined.

(** X17 at [getVendors] answered with the text [OK]. *)
Lemma text_answer_exits_zero_witness :
  getVendors <> generateToken
  /\ validate_arguments Demo.digits (Some getVendors) Demo.vendor_args = Ok tt
  /\ HTTPMessage.get_content_type Sample.text_header <> lit "application/a-gzip"
  /\ decode_utf8 (blit "OK") = Some (lit "OK")
  /\ exists w',
       main Sample.stored Demo.digits Demo.codec_text (Some getVendors) Demo.vendor_args
         (Sample.world [Response (blit "OK") Sample.text_header]) = (Exit 0, w')
       /\ printed (trace w') = [] ++ [lit "OK"]
       /\ written (trace w') = [].
Proof.
  split; [discriminate|]. split; [reflexivity|]. split; [discriminate|].
  split; [reflexivity|].
  apply (text_answer_exits_zero Sample.stored Demo.digits Demo.codec_text getVendors
           Demo.vendor_args (Sample.world [Response (blit "OK") Sample.text_header])
           Demo.vendor_credentials (Sample.world [Response (blit "OK") Sample.text_header])
           (blit "OK") Sample.text_header [] (lit "OK"));
    [discriminate | reflexivity | reflexivity | reflexivity | discriminate | reflexivity].
Defined.

(** X18 at [getSalesReport 12345 Weekly 20230101] answered with a report. *)
Lemma report_download_exits_zero_witness :
  validate_arguments Demo.digits (Some getSalesReport) Sample.report_args = Ok tt
  /\ HTTPMessage.get_content_type Demo.report_header = lit "application/a-gzip"
  /\ Sample.stored (blit "report") = Some (blit "report")
  /\ exists w',
       main Sample.stored Demo.digits Demo.codec_text (Some getSalesReport) Sample.report_args
         (Sample.world [Response (blit "report") Demo.report_header]) = (Exit 0, w')
       /\ written (trace w') = [] ++ [(lit "S_W_12345_20230101.txt", blit "report")]
       /\ printed (trace w')
          = [] ++ [lit "Successfully downloaded S_W_12345_20230101.txt"].
Proof.
  split; [reflexivity|]. split; [reflexivity|]. split; [reflexivity|].
  apply (report_download_exits_zero Sample.stored Demo.digits Demo.codec_text getSalesReport
           Sample.report_args (Sample.world [Response (blit "report") Demo.report_header])
           Sample.report_credentials
           (Sample.world [Response (blit "report") Demo.report_header])
           (blit "report") Demo.report_header []
           (lit "Successfully downloaded S_W_12345_20230101.txt.gz") (blit "report"));
    [discriminate | reflexivity | reflexivity | reflexivity | reflexivity | reflexivity
    | reflexivity | reflexivity].
Defined.

(** X19 at [getVendors] without account. *)
Lemma vendor_command_without_account_witness :
  no_account Sample.password_args = true
  /\ main Sample.stored Demo.digits Demo.codec_text (Some getVendors) Sample.password_args
       (Sample.world [Response (blit "OK") Sample.text_header])
     = (UsageError (lit "Error: Argument -a/--account is needed for command 'getVendors'"),
        Sample.world [Response (blit "OK") Sample.text_header]).
Proof.
  split; [reflexivity|].
  apply (vendor_command_without_account Sample.stored Demo.digits Demo.codec_text getVendors
           Sample.password_args (Sample.world [Response (blit "OK") Sample.text_header]));
    [left; reflexivity | reflexivity].
Defined.

(** X20 at [getSalesReport] answered with a report that does not inflate. *)
Lemma corrupt_report_is_uncaught_witness :
  validate_arguments Demo.digits (Some getSalesReport) Sample.report_args = Ok tt
  /\ Demo.broken (blit "report") = None
  /\ exists w',
       main Demo.broken Demo.digits Demo.codec_text (Some getSalesReport) Sample.report_args
         (Sample.world [Response (blit "report") Demo.report_header])
       = (Uncaught ZlibError, w')
       /\ printed (trace w') = []
       /\ written (trace w') = [].
Proof.
  split; [reflexivity|]. split; [reflexivity|].
  apply (corrupt_report_is_uncaught Demo.broken Demo.digits Demo.codec_text getSalesReport
           Sample.report_args (Sample.world [Response (blit "report") Demo.report_header])
           Sample.report_credentials
           (Sample.world [Response (blit "report") Demo.report_header])
           (blit "report") Demo.report_header []
           (lit "Successfully downloaded S_W_12345_20230101.txt.gz"));
    [discriminate | reflexivity | reflexivity | reflexivity | reflexivity | reflexivity
    | reflexivity].
Defined.
